(** * PK11Signature.c: native lifecycle of JSS signature contexts

    A shallow embedding of src/org/mozilla/jss/pkcs11/PK11Signature.c.

    The native process is modelled as an explicit state: the live native
    allocations (contexts, arenas with the blocks allocated from them, proxy
    records, temporary keys, borrowed byte buffers), the managed objects the
    C code reads and writes through JNI (the [sigContext] field of the
    PK11Signature object, the pointer stored in each SigContextProxy, byte
    arrays), the pending Java exception, the NSPR per-thread error code and
    a trace of the calls made into NSS.

    The outcome of every call into NSS, NSPR or JNI that can fail is read
    from an [Oracle]; theorems quantify over all oracles, so they cover every
    execution path of the C code.

    [PR_ASSERT] aborts the process in a DEBUG build and does nothing in a
    release build; freeing or dereferencing memory that is not live is a
    crash. *)

From Stdlib Require Import List ZArith Bool Lia.
Import ListNotations.


(** ** Identifiers and native values *)

Inductive SECOidTag :=
| SEC_OID_UNKNOWN
| SEC_OID_PKCS1_RSA_PSS_SIGNATURE
| SEC_OID_OTHER (n : nat).

Inductive SigContextType := SGN_CONTEXT | VFY_CONTEXT.

Inductive Exn :=
| OUT_OF_MEMORY_ERROR
| TOKEN_EXCEPTION
| SIGNATURE_EXCEPTION
| ARRAY_INDEX_OUT_OF_BOUNDS_EXCEPTION
| NULL_POINTER_EXCEPTION.

(** A key handed to NSS: either borrowed from a managed key object, or a
    temporary key allocated in the native heap. *)
Inductive KeyRef :=
| KeyObj (k : nat)
| KeyTmp (a : nat).

(** SEC_ERROR_BAD_SIGNATURE = SEC_ERROR_BASE + 10, SEC_ERROR_BASE = -8192. *)
Definition SEC_ERROR_BAD_SIGNATURE : Z := (-8182)%Z.

(** Result of an NSS call returning a SECStatus; a failure sets the NSPR
    error code. *)
Inductive NativeStatus :=
| NOk
| NFail (code : Z).

(** Blocks allocated from an arena. *)
Inductive Block :=
| BZeroAlgId                                   (* PORT_ArenaZAlloc'ed SECAlgorithmID *)
| BAlgId (tag : SECOidTag) (params : nat)      (* after SECOID_SetAlgorithmID *)
| BParams (sig digest : SECOidTag) (key : KeyRef). (* SEC_CreateSignatureAlgorithmParameters *)

(** Native allocations.  An arena owns the blocks allocated from it. *)
Inductive Cell :=
| CSgnCtx
| CVfyCtx
| CArena (blocks : list (nat * Block))
| CProxy (ctxt : nat) (type : SigContextType) (arena : nat) (* struct SigContextProxyStr *)
| CPrivKey
| CPubKey
| CBuf (data : list Z)
| CItem (data : list Z).

(** Calls into NSS, in the order they are made. *)
Inductive Event :=
| ENewArena
| EArenaZAlloc (arena : nat)
| ECreateParams (arena : nat) (sig digest : SECOidTag) (key : KeyRef)
| ESetAlgorithmID (arena alg : nat) (tag : SECOidTag) (params : nat)
| ECreateRSAPrivateKey (bits : nat)
| ESgnNewContext (alg : SECOidTag) (key : KeyRef)
| ESgnNewContextWithAlgorithmID (alg : nat) (key : KeyRef)
| EVfyCreateContext (key : KeyRef) (alg : SECOidTag)
| EVfyCreateContextWithAlgorithmID (key : KeyRef) (alg : nat) (digest : SECOidTag)
| ESgnBegin (ctxt : nat)
| EVfyBegin (ctxt : nat)
| ESgnUpdate (ctxt : nat) (data : list Z)
| EVfyUpdate (ctxt : nat) (data : list Z)
| ESgnEnd (ctxt : nat)
| EVfyEndWithSignature (ctxt : nat) (sig : list Z)
| EPK11Verify (key : KeyRef) (sig hash : list Z).

Inductive CrashKind := InvalidFree | UseAfterFree | AssertionFailure.

(** ** Process state *)

Record St := mkSt {
  next : nat;                         (* last native address handed out *)
  heap : list (nat * Cell);           (* live native allocations *)
  exn : option Exn;                   (* pending Java exception *)
  prerr : Z;                          (* PR_GetError() *)
  proxies : list (nat * option nat);  (* SigContextProxy objects: stored native pointer *)
  sigContext : option nat;            (* PK11Signature.sigContext field *)
  arrays : list (nat * list Z);       (* Java byte arrays *)
  jnext : nat;                        (* last managed object id handed out *)
  trace : list Event                  (* calls into NSS, most recent first *)
}.

Definition set_heap (h : list (nat * Cell)) (s : St) : St :=
  mkSt (next s) h (exn s) (prerr s) (proxies s) (sigContext s) (arrays s) (jnext s) (trace s).
Definition set_next (n : nat) (s : St) : St :=
  mkSt n (heap s) (exn s) (prerr s) (proxies s) (sigContext s) (arrays s) (jnext s) (trace s).
Definition set_exn (e : option Exn) (s : St) : St :=
  mkSt (next s) (heap s) e (prerr s) (proxies s) (sigContext s) (arrays s) (jnext s) (trace s).
Definition set_prerr (z : Z) (s : St) : St :=
  mkSt (next s) (heap s) (exn s) z (proxies s) (sigContext s) (arrays s) (jnext s) (trace s).
Definition set_proxies (p : list (nat * option nat)) (s : St) : St :=
  mkSt (next s) (heap s) (exn s) (prerr s) p (sigContext s) (arrays s) (jnext s) (trace s).
Definition set_sigContext (c : option nat) (s : St) : St :=
  mkSt (next s) (heap s) (exn s) (prerr s) (proxies s) c (arrays s) (jnext s) (trace s).
Definition set_arrays (a : list (nat * list Z)) (s : St) : St :=
  mkSt (next s) (heap s) (exn s) (prerr s) (proxies s) (sigContext s) a (jnext s) (trace s).
Definition set_jnext (n : nat) (s : St) : St :=
  mkSt (next s) (heap s) (exn s) (prerr s) (proxies s) (sigContext s) (arrays s) n (trace s).
Definition set_trace (t : list Event) (s : St) : St :=
  mkSt (next s) (heap s) (exn s) (prerr s) (proxies s) (sigContext s) (arrays s) (jnext s) t.

(** ** A state and crash monad *)

Inductive Outcome (A : Type) :=
| Done (a : A) (s : St)
| Crash (c : CrashKind).
Arguments Done {A} a s.
Arguments Crash {A} c.

Definition M (A : Type) := St -> Outcome A.

Definition ret {A} (a : A) : M A := fun s => Done a s.
Definition bind {A B} (m : M A) (k : A -> M B) : M B :=
  fun s => match m s with
           | Done a s' => k a s'
           | Crash c => Crash c
           end.
Definition crash {A} (c : CrashKind) : M A := fun _ => Crash c.
Definition get : M St := fun s => Done s s.
Definition modify (f : St -> St) : M unit := fun s => Done tt (f s).

Notation "x <- m ;; k" := (bind m (fun x => k))
  (at level 61, m at next level, right associativity).
Notation "m ;;; k" := (bind m (fun _ => k))
  (at level 61, right associativity).

(** ** Association lists *)

Fixpoint lookup {V} (a : nat) (l : list (nat * V)) : option V :=
  match l with
  | [] => None
  | (x, v) :: l' => if Nat.eqb x a then Some v else lookup a l'
  end.

Fixpoint remove_key {V} (a : nat) (l : list (nat * V)) : list (nat * V) :=
  match l with
  | [] => []
  | (x, v) :: l' => if Nat.eqb x a then l' else (x, v) :: remove_key a l'
  end.

Fixpoint update_key {V} (a : nat) (v : V) (l : list (nat * V)) : list (nat * V) :=
  match l with
  | [] => []
  | (x, w) :: l' => if Nat.eqb x a then (x, v) :: l' else (x, w) :: update_key a v l'
  end.

(** ** Native heap primitives *)

(** Allocation: a fresh non-NULL address. *)
Definition alloc (c : Cell) : M nat :=
  fun s => let a := S (next s) in
           Done a (set_next a (set_heap ((a, c) :: heap s) s)).

Definition read (a : nat) : M Cell :=
  fun s => match lookup a (heap s) with
           | Some c => Done c s
           | None => Crash UseAfterFree
           end.

Definition write (a : nat) (c : Cell) : M unit :=
  fun s => match lookup a (heap s) with
           | Some _ => Done tt (set_heap (update_key a c (heap s)) s)
           | None => Crash UseAfterFree
           end.

(** [free]: PR_Free, SGN_DestroyContext, VFY_DestroyContext,
    SECKEY_Destroy{Private,Public}Key; all of them accept NULL. *)
Definition free (a : nat) : M unit :=
  fun s => if Nat.eqb a 0 then Done tt s else
           match lookup a (heap s) with
           | Some _ => Done tt (set_heap (remove_key a (heap s)) s)
           | None => Crash InvalidFree
           end.

Definition PR_Free := free.
Definition SGN_DestroyContext := free.
Definition VFY_DestroyContext := free.
Definition SECKEY_DestroyPrivateKey := free.
Definition SECKEY_DestroyPublicKey := free.

(** PORT_FreeArena: accepts NULL; frees the arena and every block in it. *)
Definition PORT_FreeArena (a : nat) : M unit :=
  fun s => if Nat.eqb a 0 then Done tt s else
           match lookup a (heap s) with
           | Some (CArena _) => Done tt (set_heap (remove_key a (heap s)) s)
           | _ => Crash InvalidFree
           end.

Definition emit (e : Event) : M unit := modify (fun s => set_trace (e :: trace s) s).

Definition JSS_throw (e : Exn) : M unit := modify (set_exn (Some e)).
Definition JSS_throwMsg (e : Exn) : M unit := JSS_throw e.

Definition ExceptionOccurred : M bool :=
  fun s => Done (match exn s with Some _ => true | None => false end) s.

(** Outcomes of the calls into NSS, NSPR and JNI. *)
Record Oracle := mkOracle {
  o_debug : bool;              (* DEBUG build: PR_ASSERT is checked *)
  o_fields : bool;             (* GetObjectClass / GetFieldID succeed *)
  o_alg : option SECOidTag;    (* PK11Signature.algorithm, via JSS_getOidTagFromAlg *)
  o_digest : option SECOidTag; (* PK11Signature.digestAlgorithm *)
  o_key : option nat;          (* PK11Signature.key *)
  o_key_ptr : bool;            (* JSS_PK11_get{Priv,Pub}KeyPtr *)
  o_strength : KeyRef -> nat;  (* SECKEY_PublicKeyStrengthInBits *)
  o_new_arena : bool;
  o_zalloc : bool;
  o_params : bool;
  o_set_algid : bool;
  o_rsa_key : bool;            (* SECKEY_CreateRSAPrivateKey *)
  o_new_ctx : bool;            (* SGN_NewContext*, VFY_CreateContext* *)
  o_begin : bool;
  o_malloc : bool;             (* PR_Malloc of the proxy record *)
  o_find_class : bool;
  o_method : bool;
  o_new_object : bool;
  o_ref : bool;                (* JSS_RefByteArray *)
  o_update : NativeStatus;
  o_sgn_end : NativeStatus;
  o_signature : list Z;        (* bytes produced by SGN_End *)
  o_to_byte_array : bool;      (* JSS_ToByteArray *)
  o_vfy_end : NativeStatus;
  o_item : bool;               (* JSS_ByteArrayToSECItem *)
  o_pk11_verify : NativeStatus
}.

Section Code.

Variable o : Oracle.

Definition PR_ASSERT (b : bool) : M unit :=
  if o_debug o && negb b then crash AssertionFailure else ret tt.

(** ASSERT_OUTOFMEM(env) asserts that an exception is pending (see the
    comment in [getDigestAlgorithm]: where no exception has been raised it
    must not be used). *)
Definition ASSERT_OUTOFMEM : M unit :=
  e <- ExceptionOccurred ;; PR_ASSERT e.

(** Modelled from the spec: JSS_getPtrFromProxy (jssutil.c, not in this
    file) reads the native pointer stored in a managed proxy object; it
    fails, with an exception pending, when no pointer is stored there. *)
Definition JSS_getPtrFromProxy (proxy : nat) : M (option nat) :=
  fun s => match lookup proxy (proxies s) with
           | Some (Some p) => Done (Some p) s
           | _ => Done None (set_exn (Some NULL_POINTER_EXCEPTION) s)
           end.

(** SigContextProxy.releaseNativeResources *)
Definition releaseNativeResources (this : nat) : M unit :=
  r <- JSS_getPtrFromProxy this ;;
  match r with
  | None => ret tt
  | Some proxy =>
    if Nat.eqb proxy 0 then ret tt else
    c <- read proxy ;;
    match c with
    | CProxy ctxt type arena =>
      match type with
      | SGN_CONTEXT => SGN_DestroyContext ctxt
      | VFY_CONTEXT => PR_ASSERT true ;;; VFY_DestroyContext ctxt
      end ;;;
      PORT_FreeArena arena ;;;
      write proxy (CProxy ctxt type 0) ;;;
      PR_Free proxy
    | _ => crash UseAfterFree
    end
  end.

(** ** JNI accessors *)

(** GetObjectClass followed by GetFieldID; on failure the JVM has raised
    an error. *)
Definition GetFieldID : M bool :=
  if o_fields o then ret true else JSS_throw OUT_OF_MEMORY_ERROR ;;; ret false.

Definition ExceptionClear : M unit := modify (set_exn None).

Definition is_pss (t : SECOidTag) : bool :=
  match t with SEC_OID_PKCS1_RSA_PSS_SIGNATURE => true | _ => false end.

(** getAlgorithm: SEC_OID_UNKNOWN "if an error occurs". *)
Definition getAlgorithm : M SECOidTag :=
  ok <- GetFieldID ;;
  if negb ok then ASSERT_OUTOFMEM ;;; ret SEC_OID_UNKNOWN else
  match o_alg o with
  | None => ASSERT_OUTOFMEM ;;; ret SEC_OID_UNKNOWN
  | Some alg => ret alg                      (* JSS_getOidTagFromAlg *)
  end.

Definition getDigestAlgorithm : M SECOidTag :=
  ok <- GetFieldID ;;
  if negb ok then ASSERT_OUTOFMEM ;;; ret SEC_OID_UNKNOWN else
  match o_digest o with
  | None => ret SEC_OID_UNKNOWN               (* no ASSERT_OUTOFMEM here *)
  | Some alg => ret alg
  end.

(** getSomeKey, with getPrivateKey and getPublicKey.  A failing
    JSS_PK11_get{Priv,Pub}KeyPtr leaves an exception pending. *)
Definition getSomeKey : M (option KeyRef) :=
  ok <- GetFieldID ;;
  if negb ok then ASSERT_OUTOFMEM ;;; ret None else
  match o_key o with
  | None => PR_ASSERT false ;;; JSS_throw TOKEN_EXCEPTION ;;; ret None
  | Some k =>
    if o_key_ptr o then PR_ASSERT true ;;; ret (Some (KeyObj k))
    else JSS_throw TOKEN_EXCEPTION ;;; ASSERT_OUTOFMEM ;;; ret None
  end.

Definition getPrivateKey := getSomeKey.
Definition getPublicKey := getSomeKey.

Definition setSigContext (context : nat) : M unit :=
  ok <- GetFieldID ;;
  if negb ok then ASSERT_OUTOFMEM ;;; ExceptionClear
  else modify (set_sigContext (Some context)).

(** JSS_PK11_getSigContext *)
Definition JSS_PK11_getSigContext (proxy : nat) : M (option (nat * SigContextType)) :=
  r <- JSS_getPtrFromProxy proxy ;;
  match r with
  | None => ASSERT_OUTOFMEM ;;; ret None
  | Some ctxtProxy =>
    if Nat.eqb ctxtProxy 0 then
      PR_ASSERT false ;;; JSS_throw SIGNATURE_EXCEPTION ;;; ret None else
    c <- read ctxtProxy ;;
    match c with
    | CProxy ctxt type _ =>
      if Nat.eqb ctxt 0 then
        PR_ASSERT false ;;; JSS_throw SIGNATURE_EXCEPTION ;;; ret None
      else ret (Some (ctxt, type))
    | _ => crash UseAfterFree
    end
  end.

(** getSigContext ("Don't call this if there is no context") *)
Definition getSigContext : M (option (nat * SigContextType)) :=
  ok <- GetFieldID ;;
  if negb ok then ASSERT_OUTOFMEM ;;; ret None else
  s <- get ;;
  match sigContext s with
  | None => PR_ASSERT false ;;; JSS_throw TOKEN_EXCEPTION ;;; ret None
  | Some proxy =>
    r <- JSS_PK11_getSigContext proxy ;;
    match r with
    | None => ASSERT_OUTOFMEM ;;; ret None
    | Some (ctxt, type) => PR_ASSERT (negb (Nat.eqb ctxt 0)) ;;; ret (Some (ctxt, type))
    end
  end.

(** ** NSS calls *)

Definition PORT_NewArena : M nat :=
  emit ENewArena ;;; if o_new_arena o then alloc (CArena []) else ret 0.

(** Allocation of a block from an arena. *)
Definition arena_alloc (arena : nat) (b : Block) : M nat :=
  c <- read arena ;;
  match c with
  | CArena bs =>
    fun s => let a := S (next s) in
             Done a (set_next a (set_heap (update_key arena (CArena ((a, b) :: bs)) (heap s)) s))
  | _ => crash UseAfterFree
  end.

Definition arena_write (arena a : nat) (b : Block) : M unit :=
  c <- read arena ;;
  match c with
  | CArena bs =>
    match lookup a bs with
    | Some _ => write arena (CArena (update_key a b bs))
    | None => crash UseAfterFree
    end
  | _ => crash UseAfterFree
  end.

Definition PORT_ArenaZAlloc (arena : nat) : M nat :=
  emit (EArenaZAlloc arena) ;;;
  if o_zalloc o then arena_alloc arena BZeroAlgId else ret 0.

Definition SEC_CreateSignatureAlgorithmParameters
    (arena : nat) (sig digest : SECOidTag) (key : KeyRef) : M nat :=
  emit (ECreateParams arena sig digest key) ;;;
  if o_params o then arena_alloc arena (BParams sig digest key) else ret 0.

Definition SECOID_SetAlgorithmID (arena alg : nat) (tag : SECOidTag) (params : nat) : M bool :=
  emit (ESetAlgorithmID arena alg tag params) ;;;
  if o_set_algid o then arena_write arena alg (BAlgId tag params) ;;; ret true
  else ret false.

Definition SECKEY_CreateRSAPrivateKey (bits : nat) : M (nat * nat) :=
  emit (ECreateRSAPrivateKey bits) ;;;
  if o_rsa_key o then
    privk <- alloc CPrivKey ;; pubk <- alloc CPubKey ;; ret (privk, pubk)
  else ret (0, 0).

Definition SGN_NewContext (alg : SECOidTag) (key : KeyRef) : M nat :=
  emit (ESgnNewContext alg key) ;;; if o_new_ctx o then alloc CSgnCtx else ret 0.
Definition SGN_NewContextWithAlgorithmID (alg : nat) (key : KeyRef) : M nat :=
  emit (ESgnNewContextWithAlgorithmID alg key) ;;;
  if o_new_ctx o then alloc CSgnCtx else ret 0.
Definition VFY_CreateContext (key : KeyRef) (alg : SECOidTag) : M nat :=
  emit (EVfyCreateContext key alg) ;;; if o_new_ctx o then alloc CVfyCtx else ret 0.
Definition VFY_CreateContextWithAlgorithmID (key : KeyRef) (alg : nat) (digest : SECOidTag) : M nat :=
  emit (EVfyCreateContextWithAlgorithmID key alg digest) ;;;
  if o_new_ctx o then alloc CVfyCtx else ret 0.
Definition SGN_Begin (ctxt : nat) : M bool := emit (ESgnBegin ctxt) ;;; ret (o_begin o).
Definition VFY_Begin (ctxt : nat) : M bool := emit (EVfyBegin ctxt) ;;; ret (o_begin o).

(** ** getRSAPSSParamsAndSigningAlg

    [palg] is the out-parameter [alg]: [None] when [alg] is NULL,
    [Some v] when [*alg] holds [v].  Returns the SECStatus (true for
    SECSuccess) and the out-parameter afterwards. *)
Definition getRSAPSSParamsAndSigningAlg (arena : nat) (palg : option nat) (privk : KeyRef)
  : M (bool * option nat) :=
  match palg with
  | None => ret (false, None)
  | Some alg0 =>
    signAlg <- PORT_ArenaZAlloc arena ;;
    if Nat.eqb signAlg 0 then JSS_throw OUT_OF_MEMORY_ERROR ;;; ret (false, Some alg0) else
    digestAlg <- getDigestAlgorithm ;;
    sigAlgParams <- SEC_CreateSignatureAlgorithmParameters arena
                      SEC_OID_PKCS1_RSA_PSS_SIGNATURE digestAlg privk ;;
    if Nat.eqb sigAlgParams 0 then JSS_throwMsg TOKEN_EXCEPTION ;;; ret (false, Some alg0) else
    (* *alg = signAlg; *)
    rv <- SECOID_SetAlgorithmID arena signAlg SEC_OID_PKCS1_RSA_PSS_SIGNATURE sigAlgParams ;;
    (if rv then ret tt else JSS_throwMsg TOKEN_EXCEPTION) ;;;
    ret (rv, Some signAlg)
  end.

(** ** JSS_PK11_wrapSigContextProxy

    [ctxt] is [*ctxt]; [parena] is [None] when [arena] is NULL and
    [Some a] when [*arena] holds [a].  Returns the new SigContextProxy
    object (None for NULL) and the caller's [*ctxt] and [*arena]
    afterwards. *)
Definition PR_Malloc_proxy (ctxt : nat) (type : SigContextType) (arena : nat) : M nat :=
  if o_malloc o then alloc (CProxy ctxt type arena) else ret 0.

(** FindClass, GetMethodID and NewObject of the SigContextProxy
    constructor, given the byte array holding the pointer. *)
Definition NewSigContextProxy (ptr : nat) : M (option nat) :=
  if negb (o_find_class o) then JSS_throw OUT_OF_MEMORY_ERROR ;;; ASSERT_OUTOFMEM ;;; ret None else
  if negb (o_method o) then JSS_throw OUT_OF_MEMORY_ERROR ;;; ASSERT_OUTOFMEM ;;; ret None else
  if negb (o_new_object o) then JSS_throw OUT_OF_MEMORY_ERROR ;;; ret None else
  fun s => let j := S (jnext s) in
           Done (Some j) (set_jnext j (set_proxies ((j, Some ptr) :: proxies s) s)).

Definition JSS_PK11_wrapSigContextProxy (ctxt : nat) (type : SigContextType) (parena : option nat)
  : M (option nat * nat * option nat) :=
  PR_ASSERT (negb (Nat.eqb ctxt 0)) ;;;
  proxy <- PR_Malloc_proxy ctxt type (match parena with Some a => a | None => 0 end) ;;
  Context <- (if Nat.eqb proxy 0 then JSS_throw OUT_OF_MEMORY_ERROR ;;; ret None
              else NewSigContextProxy proxy) ;;
  (* finish: *)
  match Context with
  | None =>
    (if Nat.eqb proxy 0 then ret tt else PR_Free proxy) ;;;
    match type with
    | SGN_CONTEXT => SGN_DestroyContext ctxt
    | VFY_CONTEXT => PR_ASSERT true ;;; VFY_DestroyContext ctxt
    end ;;;
    match parena with Some a => PORT_FreeArena a | None => ret tt end
  | Some _ => ret tt
  end ;;;
  ret (Context, 0, match parena with Some _ => Some 0 | None => None end).

Definition opt_ptr (parena : option nat) : nat :=
  match parena with Some a => a | None => 0 end.

(** ** PK11Signature.initSigContext *)

(** The code under the label [finish]. *)
Definition initSigContext_finish (contextProxy : option nat) (ctxt arena : nat) : M unit :=
  match contextProxy with
  | None => if Nat.eqb ctxt 0 then ret tt else SGN_DestroyContext ctxt
  | Some _ => ret tt
  end ;;;
  PORT_FreeArena arena.

Definition initSigContext : M unit :=
  k <- getPrivateKey ;;
  match k with
  | None => ASSERT_OUTOFMEM ;;; initSigContext_finish None 0 0
  | Some privk =>
    signingAlg <- getAlgorithm ;;
    (* inl: goto finish before a context exists; inr: context created *)
    created <-
      (if is_pss signingAlg then
         arena <- PORT_NewArena ;;
         if Nat.eqb arena 0 then JSS_throw OUT_OF_MEMORY_ERROR ;;; ret (inl arena) else
         r <- getRSAPSSParamsAndSigningAlg arena (Some 0) privk ;;
         if negb (fst r) then ret (inl arena) else
         ctxt <- SGN_NewContextWithAlgorithmID (opt_ptr (snd r)) privk ;;
         ret (inr (ctxt, arena))
       else
         ctxt <- SGN_NewContext signingAlg privk ;;
         ret (inr (ctxt, 0))) ;;
    match created with
    | inl arena => initSigContext_finish None 0 arena
    | inr (ctxt, arena) =>
      if Nat.eqb ctxt 0 then
        JSS_throwMsg TOKEN_EXCEPTION ;;; initSigContext_finish None ctxt arena else
      begun <- SGN_Begin ctxt ;;
      if negb begun then
        JSS_throwMsg TOKEN_EXCEPTION ;;; initSigContext_finish None ctxt arena else
      w <- JSS_PK11_wrapSigContextProxy ctxt SGN_CONTEXT (Some arena) ;;
      match w with
      | (None, ctxt', parena') =>
        ASSERT_OUTOFMEM ;;; initSigContext_finish None ctxt' (opt_ptr parena')
      | (Some contextProxy, ctxt', parena') =>
        setSigContext contextProxy ;;;
        initSigContext_finish (Some contextProxy) ctxt' (opt_ptr parena')
      end
    end
  end.

(** ** PK11Signature.initVfyContext *)

Definition initVfyContext_finish (contextProxy : option nat)
    (ctxt tempPubKey privk arena : nat) : M unit :=
  match contextProxy with
  | None => if Nat.eqb ctxt 0 then ret tt else VFY_DestroyContext ctxt
  | Some _ => ret tt
  end ;;;
  SECKEY_DestroyPublicKey tempPubKey ;;;
  SECKEY_DestroyPrivateKey privk ;;;
  PORT_FreeArena arena.

Definition initVfyContext : M unit :=
  k <- getPublicKey ;;
  match k with
  | None => ASSERT_OUTOFMEM ;;; initVfyContext_finish None 0 0 0 0
  | Some pubk =>
    signingAlg <- getAlgorithm ;;
    (* the locals (tempPubKey, privk, arena) at goto finish, and the
       context when one was asked for *)
    created <-
      (if is_pss signingAlg then
         (* Create place holder private key, just to create the PSS Params. *)
         keys <- SECKEY_CreateRSAPrivateKey (o_strength o pubk) ;;
         let (privk, tempPubKey) := keys in
         if Nat.eqb privk 0 then
           JSS_throwMsg TOKEN_EXCEPTION ;;; ret (inl (tempPubKey, privk, 0)) else
         arena <- PORT_NewArena ;;
         if Nat.eqb arena 0 then
           JSS_throw OUT_OF_MEMORY_ERROR ;;; ret (inl (tempPubKey, privk, arena)) else
         r <- getRSAPSSParamsAndSigningAlg arena (Some 0) (KeyTmp privk) ;;
         if negb (fst r) then
           ASSERT_OUTOFMEM ;;; ret (inl (tempPubKey, privk, arena)) else
         digestAlg <- getDigestAlgorithm ;;
         ctxt <- VFY_CreateContextWithAlgorithmID pubk (opt_ptr (snd r)) digestAlg ;;
         ret (inr (ctxt, (tempPubKey, privk, arena)))
       else
         ctxt <- VFY_CreateContext pubk signingAlg ;;
         ret (inr (ctxt, (0, 0, 0)))) ;;
    match created with
    | inl (tempPubKey, privk, arena) =>
      initVfyContext_finish None 0 tempPubKey privk arena
    | inr (ctxt, (tempPubKey, privk, arena)) =>
      if Nat.eqb ctxt 0 then
        JSS_throwMsg TOKEN_EXCEPTION ;;;
        initVfyContext_finish None ctxt tempPubKey privk arena else
      begun <- VFY_Begin ctxt ;;
      if negb begun then
        JSS_throwMsg TOKEN_EXCEPTION ;;;
        initVfyContext_finish None ctxt tempPubKey privk arena else
      w <- JSS_PK11_wrapSigContextProxy ctxt VFY_CONTEXT (Some arena) ;;
      match w with
      | (None, ctxt', parena') =>
        ASSERT_OUTOFMEM ;;;
        initVfyContext_finish None ctxt' tempPubKey privk (opt_ptr parena')
      | (Some contextProxy, ctxt', parena') =>
        setSigContext contextProxy ;;;
        initVfyContext_finish (Some contextProxy) ctxt' tempPubKey privk (opt_ptr parena')
      end
    end
  end.

(** ** Byte arrays crossing the JNI boundary *)

Inductive ReleaseMode := JNI_COMMIT_AND_FREE | JNI_COMMIT | JNI_ABORT.

(** Modelled from the spec: JSS_RefByteArray (jssutil.c, not in this
    file), the provided marshalling primitive: it hands out a native buffer
    holding the elements of a managed byte array, and its length; on
    failure it leaves an exception pending and the pointer NULL. *)
Definition JSS_RefByteArray (array : nat) : M (option (nat * Z)) :=
  s <- get ;;
  match lookup array (arrays s) with
  | Some data =>
    if o_ref o then bytes <- alloc (CBuf data) ;; ret (Some (bytes, Z.of_nat (length data)))
    else JSS_throw OUT_OF_MEMORY_ERROR ;;; ret None
  | None => JSS_throw NULL_POINTER_EXCEPTION ;;; ret None
  end.

(** Modelled from the spec: JSS_DerefByteArray (jssutil.c, not in this
    file) gives the buffer back; JNI_ABORT frees it without copying its
    contents back into the managed array, the other modes copy them back
    first.  A NULL buffer is ignored. *)
Definition JSS_DerefByteArray (array bytes : nat) (mode : ReleaseMode) : M unit :=
  if Nat.eqb bytes 0 then ret tt else
  c <- read bytes ;;
  match c with
  | CBuf data =>
    match mode with
    | JNI_ABORT => ret tt
    | _ => modify (fun s => set_arrays (update_key array data (arrays s)) s)
    end ;;;
    free bytes
  | _ => crash UseAfterFree
  end.

(** Modelled from the spec: JSS_ByteArrayToSECItem (jssutil.c, not in
    this file) copies a managed byte array into a new SECItem, or returns
    NULL with an exception pending. *)
Definition JSS_ByteArrayToSECItem (array : nat) : M nat :=
  s <- get ;;
  match lookup array (arrays s) with
  | Some data => if o_item o then alloc (CItem data) else JSS_throw OUT_OF_MEMORY_ERROR ;;; ret 0
  | None => JSS_throw NULL_POINTER_EXCEPTION ;;; ret 0
  end.

Definition SECITEM_FreeItem := free.

Definition item_data (item : nat) : M (list Z) :=
  c <- read item ;;
  match c with
  | CItem d | CBuf d => ret d
  | _ => crash UseAfterFree
  end.

(** JSS_ToByteArray: a new managed byte array holding a copy of the
    native bytes, or NULL with an exception pending. *)
Definition JSS_ToByteArray (data : nat) : M (option nat) :=
  d <- item_data data ;;
  if o_to_byte_array o then
    fun s => let j := S (jnext s) in
             Done (Some j) (set_jnext j (set_arrays ((j, d) :: arrays s) s))
  else JSS_throw OUT_OF_MEMORY_ERROR ;;; ret None.

Definition PR_GetError : M Z := fun s => Done (prerr s) s.

Definition native_status (st : NativeStatus) : M bool :=
  match st with
  | NOk => ret true
  | NFail code => modify (set_prerr code) ;;; ret false
  end.

Definition SGN_Update (ctxt : nat) (data : list Z) : M bool :=
  emit (ESgnUpdate ctxt data) ;;; native_status (o_update o).
Definition VFY_Update (ctxt : nat) (data : list Z) : M bool :=
  emit (EVfyUpdate ctxt data) ;;; native_status (o_update o).

(** SGN_End: on success a freshly allocated signature buffer. *)
Definition SGN_End (ctxt : nat) : M (option nat) :=
  emit (ESgnEnd ctxt) ;;;
  ok <- native_status (o_sgn_end o) ;;
  if ok then buf <- alloc (CBuf (o_signature o)) ;; ret (Some buf) else ret None.

Definition VFY_EndWithSignature (ctxt : nat) (sig : list Z) : M bool :=
  emit (EVfyEndWithSignature ctxt sig) ;;; native_status (o_vfy_end o).

Definition PK11_Verify (key : KeyRef) (sig hash : list Z) : M bool :=
  emit (EPK11Verify key sig hash) ;;; native_status (o_pk11_verify o).

(** ** PK11Signature.engineUpdateNative *)

(** jint addition.  Signed overflow is undefined in C; the test
    [(offset+length) < 0] presumes two's complement wrap-around, which is
    what is modelled. *)
Definition jint_add (a b : Z) : Z :=
  ((a + b + 2 ^ 31) mod 2 ^ 32 - 2 ^ 31)%Z.

(** The bounds test of engineUpdateNative. *)
Definition update_out_of_bounds (offset length numBytes : Z) : bool :=
  (offset <? 0)%Z || (numBytes <=? offset)%Z || (length <? 0)%Z ||
  (numBytes <? jint_add offset length)%Z || (jint_add offset length <? 0)%Z.

Definition slice (data : list Z) (offset length : Z) : list Z :=
  firstn (Z.to_nat length) (skipn (Z.to_nat offset) data).

Definition engineUpdateNative (bArray : nat) (offset length : Z) : M unit :=
  r <- getSigContext ;;
  match r with
  | None => ASSERT_OUTOFMEM ;;; JSS_DerefByteArray bArray 0 JNI_ABORT
  | Some (ctxt, type) =>
    PR_ASSERT (negb (Nat.eqb ctxt 0)) ;;;
    rb <- JSS_RefByteArray bArray ;;
    match rb with
    | None => ASSERT_OUTOFMEM ;;; JSS_DerefByteArray bArray 0 JNI_ABORT
    | Some (bytes, numBytes) =>
      (if update_out_of_bounds offset length numBytes then
         JSS_throw ARRAY_INDEX_OUT_OF_BOUNDS_EXCEPTION
       else
         data <- item_data bytes ;;
         match type with
         | SGN_CONTEXT =>
           ok <- SGN_Update ctxt (slice data offset length) ;;
           if ok then ret tt else JSS_throwMsg SIGNATURE_EXCEPTION
         | VFY_CONTEXT =>
           PR_ASSERT true ;;;
           ok <- VFY_Update ctxt (slice data offset length) ;;
           if ok then ret tt else JSS_throwMsg SIGNATURE_EXCEPTION
         end) ;;;
      JSS_DerefByteArray bArray bytes JNI_ABORT
    end
  end.

(** ** PK11Signature.engineSignNative *)

Definition engineSignNative_finish (signature : nat) (sigArray : option nat) : M (option nat) :=
  (if Nat.eqb signature 0 then ret tt else PR_Free signature) ;;;
  ret sigArray.

Definition is_sgn (t : SigContextType) : bool :=
  match t with SGN_CONTEXT => true | VFY_CONTEXT => false end.

Definition engineSignNative : M (option nat) :=
  PR_ASSERT true ;;;
  r <- getSigContext ;;
  match r with
  | None => ASSERT_OUTOFMEM ;;; engineSignNative_finish 0 None
  | Some (ctxt, type) =>
    PR_ASSERT (negb (Nat.eqb ctxt 0) && is_sgn type) ;;;
    sg <- SGN_End ctxt ;;
    match sg with
    | None => JSS_throwMsg SIGNATURE_EXCEPTION ;;; engineSignNative_finish 0 None
    | Some signature =>
      sigArray <- JSS_ToByteArray signature ;;
      match sigArray with
      | None => ASSERT_OUTOFMEM ;;; engineSignNative_finish signature None
      | Some a => engineSignNative_finish signature (Some a)
      end
    end
  end.

(** ** PK11Signature.engineVerifyNative *)

Definition engineVerifyNative_finish (sigArray data : nat) (verified : bool) : M bool :=
  JSS_DerefByteArray sigArray data JNI_ABORT ;;; ret verified.

Definition engineVerifyNative (sigArray : nat) : M bool :=
  PR_ASSERT true ;;;
  r <- getSigContext ;;
  match r with
  | None =>
    PR_ASSERT false ;;; JSS_throwMsg SIGNATURE_EXCEPTION ;;;
    engineVerifyNative_finish sigArray 0 false
  | Some (ctxt, type) =>
    match type with
    | SGN_CONTEXT =>
      PR_ASSERT false ;;; JSS_throwMsg SIGNATURE_EXCEPTION ;;;
      engineVerifyNative_finish sigArray 0 false
    | VFY_CONTEXT =>
      rb <- JSS_RefByteArray sigArray ;;
      match rb with
      | None => ASSERT_OUTOFMEM ;;; engineVerifyNative_finish sigArray 0 false
      | Some (data, _) =>
        sigItem <- item_data data ;;
        ok <- VFY_EndWithSignature ctxt sigItem ;;
        if ok then engineVerifyNative_finish sigArray data true else
        err <- PR_GetError ;;
        if negb (err =? SEC_ERROR_BAD_SIGNATURE)%Z then
          PR_ASSERT false ;;; JSS_throwMsg SIGNATURE_EXCEPTION ;;;
          engineVerifyNative_finish sigArray data false
        else engineVerifyNative_finish sigArray data false
      end
    end
  end.

(** ** PK11Signature.engineRawVerifyNative *)

Definition engineRawVerifyNative_finish (sig hash : nat) (verified : bool) : M bool :=
  (if Nat.eqb sig 0 then ret tt else SECITEM_FreeItem sig) ;;;
  (if Nat.eqb hash 0 then ret tt else SECITEM_FreeItem hash) ;;;
  ret verified.

Definition JSS_PK11_getPubKeyPtr (keyObj : nat) : M (option KeyRef) :=
  if o_key_ptr o then ret (Some (KeyObj keyObj))
  else JSS_throw TOKEN_EXCEPTION ;;; ret None.

Definition engineRawVerifyNative (keyObj hashBA sigBA : nat) : M bool :=
  PR_ASSERT true ;;;
  sig <- JSS_ByteArrayToSECItem sigBA ;;
  if Nat.eqb sig 0 then engineRawVerifyNative_finish sig 0 false else
  hash <- JSS_ByteArrayToSECItem hashBA ;;
  if Nat.eqb hash 0 then engineRawVerifyNative_finish sig hash false else
  k <- JSS_PK11_getPubKeyPtr keyObj ;;
  match k with
  | None => engineRawVerifyNative_finish sig hash false
  | Some key =>
    sd <- item_data sig ;; hd <- item_data hash ;;
    status <- PK11_Verify key sd hd ;;
    if status then engineRawVerifyNative_finish sig hash true else
    err <- PR_GetError ;;
    if negb (err =? SEC_ERROR_BAD_SIGNATURE)%Z then
      JSS_throwMsg SIGNATURE_EXCEPTION ;;; engineRawVerifyNative_finish sig hash false
    else engineRawVerifyNative_finish sig hash false
  end.

End Code.

(** ** PK11Signature.engineRawSignNative *)

(** Outcomes of the calls of engineRawSignNative that [Oracle] does not
    cover. *)
Record RawSignOracle := mkRawSignOracle {
  r_new : bool;                     (* PR_NEW(SECItem) *)
  r_malloc : bool;                  (* PR_Malloc(sig->len) *)
  r_sig_len : KeyRef -> nat;        (* PK11_SignatureLen *)
  r_sign : KeyRef -> option (list Z) -> bool -> NativeStatus;
      (* PK11_Sign, given the key, the hash bytes (None for a NULL hash)
         and whether sig->data was allocated *)
  r_signature : KeyRef -> option (list Z) -> list Z
      (* the bytes PK11_Sign stores in sig *)
}.

Section RawSign.

Variable o : Oracle.
Variable ro : RawSignOracle.

(** JSS_PK11_getPrivKeyPtr (not in this file), as JSS_PK11_getPubKeyPtr:
    the private key of a key object, or a failure with an exception
    pending. *)
Definition JSS_PK11_getPrivKeyPtr (keyObj : nat) : M (option KeyRef) :=
  if o_key_ptr o then ret (Some (KeyObj keyObj))
  else JSS_throw TOKEN_EXCEPTION ;;; ret None.

(** JSS_SECItemToByteArray (not in this file): a new managed array
    holding the item's bytes, or NULL with an exception pending. *)
Definition JSS_SECItemToByteArray (item : nat) : M (option nat) :=
  JSS_ToByteArray o item.

(** PK11_Sign(key, sig, hash): reads the hash (a NULL hash is passed on
    as it is) and on success stores the signature in [sig]. *)
Definition PK11_Sign (key : KeyRef) (sig hash : nat) : M bool :=
  hd <- (if Nat.eqb hash 0 then ret None else d <- item_data hash ;; ret (Some d)) ;;
  ok <- native_status (r_sign ro key hd (r_malloc ro)) ;;
  if ok then write sig (CItem (r_signature ro key hd)) ;;; ret true else ret false.

(** The code under the label [finish]. *)
Definition engineRawSignNative_finish (sig hash : nat) (sigBA : option nat) : M (option nat) :=
  (if Nat.eqb sig 0 then ret tt else SECITEM_FreeItem sig) ;;;
  (if Nat.eqb hash 0 then ret tt else SECITEM_FreeItem hash) ;;;
  ret sigBA.

(** Neither the item returned by JSS_ByteArrayToSECItem nor the one
    returned by PR_NEW is checked: [sig->len = ...] stores through
    whatever PR_NEW returned, NULL included. *)
Definition engineRawSignNative (keyObj hashBA : nat) : M (option nat) :=
  PR_ASSERT o true ;;;
  k <- JSS_PK11_getPrivKeyPtr keyObj ;;
  match k with
  | None => engineRawSignNative_finish 0 0 None
  | Some key =>
    hash <- JSS_ByteArrayToSECItem o hashBA ;;
    sig <- (if r_new ro then alloc (CItem []) else ret 0) ;;
    (* sig->len = PK11_SignatureLen(key); sig->data = PR_Malloc(sig->len); *)
    write sig (CItem (repeat 0%Z (r_sig_len ro key))) ;;;
    ok <- PK11_Sign key sig hash ;;
    if ok then
      sigBA <- JSS_SECItemToByteArray sig ;;
      engineRawSignNative_finish sig hash sigBA
    else
      JSS_throwMsg SIGNATURE_EXCEPTION ;;; engineRawSignNative_finish sig hash None
  end.

End RawSign.

(** ** Concrete configurations used by the examples *)

(** A release build in which every native call succeeds. *)
Definition all_ok (alg : SECOidTag) : Oracle :=
  mkOracle false true (Some alg) None (Some 7) true (fun _ => 2048)
    true true true true true true true true true true true true
    NOk NOk [] true NOk true NOk.

(** A fresh process: empty native heap, one four-byte managed array [200]. *)
Definition fresh_state : St :=
  mkSt 10 [] None 0%Z [] None [(200, [1; 2; 3; 4]%Z)] 100 [].

(** The state after a successful initSigContext with a plain algorithm:
    managed proxy [101] holds the record [12], which owns context [11]. *)
Definition signing_state : St :=
  mkSt 12 [(12, CProxy 11 SGN_CONTEXT 0); (11, CSgnCtx)] None 0%Z
    [(101, Some 12)] (Some 101) [(200, [1; 2; 3; 4]%Z)] 101
    [ESgnBegin 11; ESgnNewContext (SEC_OID_OTHER 1) (KeyObj 7)].

(** The same state for a verification: proxy [101] holds record [12],
    which owns verification context [11]; array [201] holds a signature. *)
Definition verifying_state : St :=
  mkSt 12 [(12, CProxy 11 VFY_CONTEXT 0); (11, CVfyCtx)] None 0%Z
    [(101, Some 12)] (Some 101) [(200, [1; 2; 3; 4]%Z); (201, [5; 6]%Z)] 101 [].

(** A release build in which the signature does not match. *)
Definition bad_signature : Oracle :=
  mkOracle false true (Some (SEC_OID_OTHER 1)) None (Some 7) true (fun _ => 2048)
    true true true true true true true true true true true true
    NOk NOk [] true (NFail SEC_ERROR_BAD_SIGNATURE) true (NFail SEC_ERROR_BAD_SIGNATURE).


(** A signing context [11] and an arena [5] about to be wrapped. *)
Definition wrap_state : St :=
  mkSt 11 [(11, CSgnCtx); (5, CArena [])] None 0%Z [] None [] 100 [].

(** A live, empty arena [5]. *)
Definition arena_state : St :=
  mkSt 5 [(5, CArena [])] None 0%Z [] None [] 100 [].

(** [signing_state] after its proxy record [12] and context [11] were
    released: managed proxy [101] still holds the pointer [12]. *)
Definition released_state : St :=
  mkSt 12 [] None 0%Z [(101, Some 12)] (Some 101) [(200, [1; 2; 3; 4]%Z)] 101 [].

(** A signature object whose proxy [101] holds a NULL pointer. *)
Definition null_proxy_state : St :=
  mkSt 12 [] None 0%Z [(101, Some 0)] (Some 101) [(200, [1; 2; 3; 4]%Z)] 101 [].

(** A release build in which the key field of the signature object is
    null. *)
Definition no_key_release : Oracle :=
  mkOracle false true (Some (SEC_OID_OTHER 1)) None None true (fun _ => 2048)
    true true true true true true true true true true true true
    NOk NOk [] true NOk true NOk.


(** Raw signing in which PR_NEW(SECItem) returns NULL. *)
Definition raw_null_item : RawSignOracle :=
  mkRawSignOracle false true (fun _ => 2) (fun _ _ _ => NOk) (fun _ _ => [9; 9]%Z).

(** ** Association-list lemmas *)

Section Alist.
Context {V : Type}.

Lemma lookup_remove_other (a b : nat) (l : list (nat * V)) :
  a <> b -> lookup a (remove_key b l) = lookup a l.
Proof.
  intros Hab; induction l as [|[x v] l IH]; simpl; [reflexivity|].
  destruct (Nat.eqb x b) eqn:Exb.
  - apply Nat.eqb_eq in Exb; subst x.
    destruct (Nat.eqb b a) eqn:Eba; [apply Nat.eqb_eq in Eba; congruence|reflexivity].
  - simpl; destruct (Nat.eqb x a); [reflexivity|exact IH].
Qed.

Lemma lookup_notin (a : nat) (l : list (nat * V)) :
  ~ In a (map fst l) -> lookup a l = None.
Proof.
  induction l as [|[x v] l IH]; simpl; intros Hn; [reflexivity|].
  destruct (Nat.eqb x a) eqn:Exa.
  - apply Nat.eqb_eq in Exa; subst; tauto.
  - apply IH; tauto.
Qed.

Lemma lookup_remove_same (a : nat) (l : list (nat * V)) :
  NoDup (map fst l) -> lookup a (remove_key a l) = None.
Proof.
  induction l as [|[x v] l IH]; simpl; intros Hnd; [reflexivity|].
  inversion Hnd as [|? ? Hnotin Hnd']; subst.
  destruct (Nat.eqb x a) eqn:Exa.
  - apply Nat.eqb_eq in Exa; subst x. now apply lookup_notin.
  - simpl; rewrite Exa; apply IH; assumption.
Qed.

Lemma lookup_update_other (a b : nat) (v : V) (l : list (nat * V)) :
  a <> b -> lookup a (update_key b v l) = lookup a l.
Proof.
  intros Hab; induction l as [|[x w] l IH]; simpl; [reflexivity|].
  destruct (Nat.eqb x b) eqn:Exb; simpl.
  - apply Nat.eqb_eq in Exb; subst x.
    destruct (Nat.eqb b a) eqn:Eba; [apply Nat.eqb_eq in Eba; congruence|reflexivity].
  - destruct (Nat.eqb x a); [reflexivity|exact IH].
Qed.

Lemma lookup_update_same (a : nat) (v : V) (l : list (nat * V)) :
  lookup a l <> None -> lookup a (update_key a v l) = Some v.
Proof.
  induction l as [|[x w] l IH]; simpl; intros Hl; [congruence|].
  destruct (Nat.eqb x a) eqn:Exa; simpl; rewrite Exa; [reflexivity|auto].
Qed.

Lemma keys_update (a : nat) (v : V) (l : list (nat * V)) :
  map fst (update_key a v l) = map fst l.
Proof.
  induction l as [|[x w] l IH]; simpl; [reflexivity|].
  destruct (Nat.eqb x a); simpl; [reflexivity|now rewrite IH].
Qed.

Lemma keys_remove_incl (a : nat) (l : list (nat * V)) (x : nat) :
  In x (map fst (remove_key a l)) -> In x (map fst l).
Proof.
  induction l as [|[y w] l IH]; simpl; [tauto|].
  destruct (Nat.eqb y a); simpl; [tauto|intuition].
Qed.

Lemma NoDup_remove (a : nat) (l : list (nat * V)) :
  NoDup (map fst l) -> NoDup (map fst (remove_key a l)).
Proof.
  induction l as [|[x w] l IH]; simpl; intros Hnd; [constructor|].
  inversion Hnd; subst.
  destruct (Nat.eqb x a); [assumption|].
  simpl; constructor; [|auto].
  intros Hin; apply keys_remove_incl in Hin; contradiction.
Qed.

Lemma update_key_twice (a : nat) (v1 v2 : V) (l : list (nat * V)) :
  update_key a v2 (update_key a v1 l) = update_key a v2 l.
Proof.
  induction l as [|[x w] l IH]; simpl; [reflexivity|].
  destruct (Nat.eqb x a) eqn:Exa; simpl; rewrite Exa; [reflexivity|now rewrite IH].
Qed.

Lemma update_key_lookup (a : nat) (v : V) (l : list (nat * V)) :
  lookup a l = Some v -> update_key a v l = l.
Proof.
  induction l as [|[x w] l IH]; simpl; [reflexivity|].
  destruct (Nat.eqb x a) eqn:Exa; [congruence|intros H; now rewrite IH].
Qed.

End Alist.

Ltac eqb_simpl :=
  repeat match goal with
         | |- context [Nat.eqb ?a ?a] => rewrite (Nat.eqb_refl a)
         | H : ?a <> ?b |- context [Nat.eqb ?a ?b] =>
             rewrite (proj2 (Nat.eqb_neq a b) H)
         | H : ?b <> ?a |- context [Nat.eqb ?a ?b] =>
             rewrite (proj2 (Nat.eqb_neq a b) (not_eq_sym H))
         end.


(** ** Monad and heap-primitive equations *)

Lemma bind_Done {A B} (m : M A) (k : A -> M B) (s s' : St) (a : A) :
  m s = Done a s' -> bind m k s = k a s'.
Proof. unfold bind; intros ->; reflexivity. Qed.

Lemma bind_Crash {A B} (m : M A) (k : A -> M B) (s : St) (c : CrashKind) :
  m s = Crash c -> bind m k s = Crash c.
Proof. unfold bind; intros ->; reflexivity. Qed.

Lemma free_live (a : nat) (c : Cell) (s : St) :
  a <> 0 -> lookup a (heap s) = Some c ->
  free a s = Done tt (set_heap (remove_key a (heap s)) s).
Proof.
  intros Ha Hl; unfold free; rewrite (proj2 (Nat.eqb_neq a 0) Ha), Hl; reflexivity.
Qed.

Lemma PORT_FreeArena_live (a : nat) (bs : list (nat * Block)) (s : St) :
  a <> 0 -> lookup a (heap s) = Some (CArena bs) ->
  PORT_FreeArena a s = Done tt (set_heap (remove_key a (heap s)) s).
Proof.
  intros Ha Hl; unfold PORT_FreeArena; rewrite (proj2 (Nat.eqb_neq a 0) Ha), Hl; reflexivity.
Qed.

Lemma read_live (a : nat) (c : Cell) (s : St) :
  lookup a (heap s) = Some c -> read a s = Done c s.
Proof. intros Hl; unfold read; rewrite Hl; reflexivity. Qed.

Lemma read_dead (a : nat) (s : St) :
  lookup a (heap s) = None -> read a s = Crash UseAfterFree.
Proof. intros Hl; unfold read; rewrite Hl; reflexivity. Qed.

Lemma write_live (a : nat) (c c' : Cell) (s : St) :
  lookup a (heap s) = Some c' ->
  write a c s = Done tt (set_heap (update_key a c (heap s)) s).
Proof. intros Hl; unfold write; rewrite Hl; reflexivity. Qed.

Lemma PR_ASSERT_true (o : Oracle) (s : St) : PR_ASSERT o true s = Done tt s.
Proof. unfold PR_ASSERT; rewrite andb_false_r; reflexivity. Qed.

(** ** C1: releaseNativeResources *)

Section Release.

Variable o : Oracle.

(** C1 (corrected): releaseNativeResources frees the context, the arena
    and the proxy record, and leaves the pointer stored in the managed
    SigContextProxy unchanged, so a second call on the same unchanged managed
    object reads the freed record (a use after free); the call is a no-op
    only when the managed object holds no pointer. *)
Theorem releaseNativeResources_frees_and_keeps_pointer
    (this p ctxt arena : nat) (type : SigContextType) (bs : list (nat * Block)) (s : St)
    (Hnd : NoDup (map fst (heap s)))
    (Hj : lookup this (proxies s) = Some (Some p)) (Hp : p <> 0)
    (Hrec : lookup p (heap s) = Some (CProxy ctxt type arena))
    (Hc : ctxt <> 0) (Hcp : ctxt <> p) (Hcl : lookup ctxt (heap s) <> None)
    (Ha : arena = 0 \/
          (arena <> 0 /\ arena <> p /\ arena <> ctxt /\ lookup arena (heap s) = Some (CArena bs))) :
  (exists s',
     releaseNativeResources o this s = Done tt s' /\
     lookup p (heap s') = None /\
     lookup ctxt (heap s') = None /\
     (arena <> 0 -> lookup arena (heap s') = None) /\
     proxies s' = proxies s /\
     releaseNativeResources o this s' = Crash UseAfterFree) /\
  (forall s0 : St, lookup this (proxies s0) = Some None \/ lookup this (proxies s0) = Some (Some 0) ->
     exists s0', releaseNativeResources o this s0 = Done tt s0' /\ heap s0' = heap s0).
Proof.
  split.
  2:{ intros s0 [H0|H0]; unfold releaseNativeResources, bind, JSS_getPtrFromProxy, ret;
      rewrite H0; simpl; eexists; split; reflexivity. }
  destruct (lookup ctxt (heap s)) as [c0|] eqn:Hc0; [|congruence].
  set (h1 := remove_key ctxt (heap s)).
  set (h2 := if Nat.eqb arena 0 then h1 else remove_key arena h1).
  set (h3 := update_key p (CProxy ctxt type 0) h2).
  set (h4 := remove_key p h3).
  assert (N1 : NoDup (map fst h1)) by (apply NoDup_remove; assumption).
  assert (N2 : NoDup (map fst h2))
    by (unfold h2; destruct (Nat.eqb arena 0); [|apply NoDup_remove]; assumption).
  assert (N3 : NoDup (map fst h3)) by (unfold h3; rewrite keys_update; assumption).
  assert (L1 : lookup p h1 = Some (CProxy ctxt type arena))
    by (unfold h1; rewrite lookup_remove_other by congruence; exact Hrec).
  assert (L2 : lookup p h2 = Some (CProxy ctxt type arena)).
  { unfold h2; destruct Ha as [->|[Ha0 [Hap _]]]; [exact L1|].
    rewrite (proj2 (Nat.eqb_neq _ _) Ha0), lookup_remove_other by congruence; exact L1. }
  assert (L3 : lookup p h3 = Some (CProxy ctxt type 0))
    by (apply lookup_update_same; rewrite L2; congruence).
  assert (FA : PORT_FreeArena arena (set_heap h1 s) = Done tt (set_heap h2 (set_heap h1 s))).
  { unfold h2; destruct Ha as [->|[Ha0 [Hap [Hac Hal]]]]; [reflexivity|].
    rewrite (proj2 (Nat.eqb_neq _ _) Ha0).
    apply (PORT_FreeArena_live _ bs); [assumption|].
    simpl; unfold h1; rewrite lookup_remove_other by congruence; exact Hal. }
  assert (Run : releaseNativeResources o this s =
                Done tt (set_heap h4 (set_heap h3 (set_heap h2 (set_heap h1 s))))).
  { unfold releaseNativeResources.
    erewrite bind_Done by (unfold JSS_getPtrFromProxy; rewrite Hj; reflexivity).
    cbn beta iota; rewrite (proj2 (Nat.eqb_neq _ _) Hp).
    erewrite bind_Done by (apply read_live; exact Hrec).
    cbn beta iota.
    erewrite bind_Done.
    2:{ destruct type; [apply (free_live _ c0); assumption|].
        erewrite bind_Done by apply PR_ASSERT_true. apply (free_live _ c0); assumption. }
    erewrite bind_Done by exact FA.
    erewrite bind_Done by (apply write_live with (c' := CProxy ctxt type arena); exact L2).
    apply (free_live _ (CProxy ctxt type 0)); [assumption|exact L3]. }
  exists (set_heap h4 (set_heap h3 (set_heap h2 (set_heap h1 s)))).
  split; [exact Run|]. simpl.
  split; [apply lookup_remove_same; exact N3|].
  split.
  { unfold h4; rewrite lookup_remove_other by congruence.
    unfold h3; rewrite lookup_update_other by congruence.
    unfold h2; destruct Ha as [->|[Ha0 [Hap [Hac _]]]]; [apply lookup_remove_same; assumption|].
    rewrite (proj2 (Nat.eqb_neq _ _) Ha0), lookup_remove_other by congruence.
    apply lookup_remove_same; assumption. }
  split.
  { intros Ha0; destruct Ha as [->|[_ [Hap _]]]; [congruence|].
    unfold h4; rewrite lookup_remove_other by congruence.
    unfold h3; rewrite lookup_update_other by congruence.
    unfold h2; rewrite (proj2 (Nat.eqb_neq _ _) Ha0).
    apply lookup_remove_same; assumption. }
  split; [reflexivity|].
  unfold releaseNativeResources.
  erewrite bind_Done by (unfold JSS_getPtrFromProxy; simpl; rewrite Hj; reflexivity).
  cbn beta iota; rewrite (proj2 (Nat.eqb_neq _ _) Hp).
  apply bind_Crash, read_dead; simpl; apply lookup_remove_same; exact N3.
Qed.
End Release.

(** Witness: the release of the signing proxy of [signing_state]. *)
Lemma releaseNativeResources_frees_and_keeps_pointer_witness :
  NoDup (map fst (heap signing_state)) /\
  exists s', releaseNativeResources (all_ok (SEC_OID_OTHER 1)) 101 signing_state = Done tt s' /\
             releaseNativeResources (all_ok (SEC_OID_OTHER 1)) 101 s' = Crash UseAfterFree.
Proof.
  split; [simpl; repeat constructor; simpl; intuition lia|].
  destruct (releaseNativeResources_frees_and_keeps_pointer (all_ok (SEC_OID_OTHER 1))
              101 12 11 0 SGN_CONTEXT [] signing_state
              ltac:(simpl; repeat constructor; simpl; intuition lia)
              ltac:(reflexivity) ltac:(lia) ltac:(reflexivity) ltac:(lia) ltac:(lia)
              ltac:(simpl; congruence) ltac:(left; reflexivity))
    as [[s' [H1 [_ [_ [_ [_ H2]]]]]] _].
  exists s'; split; assumption.
Defined.


(** C1 counterexample: after initSigContext, a first release of the new
    proxy completes, and releasing the same proxy again dereferences the
    freed record. *)
Lemma releaseNativeResources_twice_crashes :
  match (initSigContext (all_ok (SEC_OID_OTHER 1)) ;;;
         releaseNativeResources (all_ok (SEC_OID_OTHER 1)) 101) fresh_state with
  | Done _ s' => sigContext s' = Some 101
  | Crash _ => False
  end /\
  (initSigContext (all_ok (SEC_OID_OTHER 1)) ;;;
   releaseNativeResources (all_ok (SEC_OID_OTHER 1)) 101 ;;;
   releaseNativeResources (all_ok (SEC_OID_OTHER 1)) 101) fresh_state = Crash UseAfterFree.
Proof.
  split; vm_compute; reflexivity.
Qed.

(** ** Symbolic execution *)

Ltac unfold_code :=
  cbv beta iota delta [engineVerifyNative engineVerifyNative_finish engineRawVerifyNative
    engineRawVerifyNative_finish engineUpdateNative engineSignNative engineSignNative_finish
    getSigContext JSS_PK11_getSigContext JSS_getPtrFromProxy GetFieldID
    JSS_RefByteArray JSS_DerefByteArray JSS_ByteArrayToSECItem JSS_PK11_getPubKeyPtr
    SECITEM_FreeItem item_data VFY_EndWithSignature PK11_Verify SGN_End SGN_Update
    VFY_Update JSS_ToByteArray native_status PR_GetError emit modify
    JSS_throwMsg JSS_throw ExceptionOccurred ASSERT_OUTOFMEM PR_ASSERT PR_Free
    alloc read write free get bind ret crash
    set_heap set_next set_exn set_prerr set_proxies set_sigContext set_arrays
    set_jnext set_trace].

Ltac unfold_raw :=
  cbv beta iota delta [engineRawSignNative engineRawSignNative_finish PK11_Sign
    JSS_SECItemToByteArray JSS_PK11_getPrivKeyPtr JSS_ByteArrayToSECItem JSS_ToByteArray
    SECITEM_FreeItem item_data native_status emit modify
    JSS_throwMsg JSS_throw ExceptionOccurred ASSERT_OUTOFMEM PR_ASSERT PR_Free
    alloc read write free get bind ret crash
    set_heap set_next set_exn set_prerr set_proxies set_sigContext set_arrays
    set_jnext set_trace].

Local Arguments Nat.eqb : simpl never.

Ltac step_rw :=
  match goal with
  | H : ?x = ?x |- _ => clear H
  | H : ?x = _ |- context [?x] => tryif is_var x then fail else rewrite H
  | |- context [Nat.eqb ?a ?a] => rewrite Nat.eqb_refl
  | |- context [Nat.eqb ?a ?b] => rewrite (proj2 (Nat.eqb_neq a b)) by lia
  | |- context [?b && false] => rewrite andb_false_r
  | |- context [(?a =? ?b)%Z] => destruct (a =? b)%Z
  | |- context [lookup ?a (remove_key ?b ?l)] => rewrite (lookup_remove_other a b l) by lia
  | |- context [update_key ?a ?v2 (update_key ?a ?v1 ?l)] => rewrite (update_key_twice a v1 v2 l)
  | |- context [lookup ?a (update_key ?a ?v ?l)] => rewrite (lookup_update_same a v l) by congruence
  | |- context [lookup ?a (update_key ?b ?v ?l)] => rewrite (lookup_update_other a b v l) by lia
  end.

Ltac go := repeat (simpl; step_rw).

(** Case analysis on the innermost undetermined condition. *)
Ltac split_cond :=
  match goal with
  | |- context [match ?x with _ => _ end] =>
      lazymatch x with
      | context [match _ with _ => _ end] => fail
      | _ => destruct x eqn:?
      end
  end.

Ltac crunch_rec := go; try (split_cond; crunch_rec).
Ltac crunch := crunch_rec; simpl in *; try discriminate; try congruence.

(** For the longer entry points: unfold everything they call, and split
    only on the condition evaluated next, so that each path is followed
    in program order and infeasible paths are dropped as soon as their
    conditions contradict each other. *)
Ltac unfold_init :=
  cbv beta iota delta [initSigContext initSigContext_finish initVfyContext initVfyContext_finish
    JSS_PK11_wrapSigContextProxy PR_Malloc_proxy NewSigContextProxy
    getRSAPSSParamsAndSigningAlg PORT_NewArena arena_alloc arena_write PORT_ArenaZAlloc
    SEC_CreateSignatureAlgorithmParameters SECOID_SetAlgorithmID SECKEY_CreateRSAPrivateKey
    SGN_NewContext SGN_NewContextWithAlgorithmID VFY_CreateContext
    VFY_CreateContextWithAlgorithmID SGN_Begin VFY_Begin
    getAlgorithm getDigestAlgorithm getSomeKey getPrivateKey getPublicKey setSigContext
    GetFieldID ExceptionClear is_pss opt_ptr
    SGN_DestroyContext VFY_DestroyContext SECKEY_DestroyPrivateKey SECKEY_DestroyPublicKey
    PORT_FreeArena emit modify JSS_throwMsg JSS_throw ExceptionOccurred ASSERT_OUTOFMEM
    PR_ASSERT PR_Free alloc read write free get bind ret crash
    set_heap set_next set_exn set_prerr set_proxies set_sigContext set_arrays
    set_jnext set_trace].

Ltac head_split t :=
  lazymatch t with
  | match ?x with _ => _ end => first [head_split x | destruct x eqn:?]
  | andb ?a _ => first [head_split a | destruct a eqn:?]
  | negb ?a => first [head_split a | destruct a eqn:?]
  | ?f _ => head_split f
  end.

Ltac split_head := match goal with |- ?g => head_split g end.

Ltac crunch_head := go; first [discriminate | congruence | split_head; crunch_head | idtac].

(** Closes the outcome of a context creation: either nothing changed, or
    the new proxy record owns the context and possibly an arena. *)
Ltac close_owned :=
  simpl;
  first [ left; split; reflexivity
        | right; do 4 eexists; exists [];
          split; [reflexivity|]; split; [reflexivity|]; split; [reflexivity|];
          left; split; reflexivity
        | right; do 4 eexists; eexists [(_, CArena _)];
          split; [reflexivity|]; split; [reflexivity|]; split; [reflexivity|];
          right; eexists; reflexivity
        | split; [reflexivity|auto] ].

(** ** C2: bounds check of engineUpdateNative *)

(** C2 (code_bug): on a four-byte array, the zero-length update at
    offset 4 (= the array size) is rejected with an
    ArrayIndexOutOfBoundsException and never reaches SGN_Update: the test
    [offset >= numBytes] rejects it although [offset+length <= numBytes]. *)
Theorem engineUpdateNative_rejects_empty_update_at_end :
  update_out_of_bounds 4 0 4 = true /\
  match engineUpdateNative (all_ok (SEC_OID_OTHER 1)) 200 4 0 signing_state with
  | Done _ s' => exn s' = Some ARRAY_INDEX_OUT_OF_BOUNDS_EXCEPTION /\
                 trace s' = trace signing_state
  | Crash _ => False
  end.
Proof. split; vm_compute; [reflexivity|split; reflexivity]. Qed.

(** ** C3: a bad signature is not an error *)

(** C3: in a release build, once the verification context and the
    signature bytes are in hand, engineVerifyNative returns false with no
    exception exactly when VFY_EndWithSignature fails with
    SEC_ERROR_BAD_SIGNATURE, returns true on success, and raises a
    SignatureException on every other failure; engineRawVerifyNative
    follows the same rule for PK11_Verify. *)
Theorem verify_bad_signature_is_not_an_error
    (o : Oracle) (s : St) (sigArray j p ctxt arena : nat) (data : list Z)
    (keyObj hashBA sigBA : nat) (hash sig : list Z)
    (Hrel : o_debug o = false) (Hf : o_fields o = true) (Href : o_ref o = true)
    (Hitem : o_item o = true) (Hkey : o_key_ptr o = true)
    (Hsc : sigContext s = Some j) (Hj : lookup j (proxies s) = Some (Some p)) (Hp : p <> 0)
    (Hrec : lookup p (heap s) = Some (CProxy ctxt VFY_CONTEXT arena)) (Hc : ctxt <> 0)
    (Harr : lookup sigArray (arrays s) = Some data)
    (Hh : lookup hashBA (arrays s) = Some hash) (Hs : lookup sigBA (arrays s) = Some sig)
    (Hex : exn s = None) :
  match engineVerifyNative o sigArray s with
  | Done verified s' =>
    match o_vfy_end o with
    | NOk => verified = true /\ exn s' = None
    | NFail code =>
      verified = false /\
      exn s' = (if (code =? SEC_ERROR_BAD_SIGNATURE)%Z then None else Some SIGNATURE_EXCEPTION)
    end
  | Crash _ => False
  end /\
  match engineRawVerifyNative o keyObj hashBA sigBA s with
  | Done verified s' =>
    match o_pk11_verify o with
    | NOk => verified = true /\ exn s' = None
    | NFail code =>
      verified = false /\
      exn s' = (if (code =? SEC_ERROR_BAD_SIGNATURE)%Z then None else Some SIGNATURE_EXCEPTION)
    end
  | Crash _ => False
  end.
Proof.
  split.
  - unfold_code; go. destruct (o_vfy_end o) as [|code]; go; auto.
  - unfold_code; go. destruct (o_pk11_verify o) as [|code]; go; auto.
Qed.

Lemma verify_bad_signature_is_not_an_error_witness :
  match engineVerifyNative bad_signature 201 verifying_state with
  | Done verified s' => verified = false /\ exn s' = None
  | Crash _ => False
  end /\
  match engineRawVerifyNative bad_signature 7 200 201 verifying_state with
  | Done verified s' => verified = false /\ exn s' = None
  | Crash _ => False
  end.
Proof.
  exact (verify_bad_signature_is_not_an_error bad_signature verifying_state 201 101 12 11 0
           [5; 6]%Z 7 200 201 [1; 2; 3; 4]%Z [5; 6]%Z
           eq_refl eq_refl eq_refl eq_refl eq_refl eq_refl eq_refl ltac:(lia) eq_refl
           ltac:(lia) eq_refl eq_refl eq_refl eq_refl).
Defined.

(** ** C9: kind checks at finalisation *)

(** C9: engineVerifyNative on a signing proxy never reaches
    VFY_EndWithSignature: in a release build it raises a
    SignatureException and returns false (a DEBUG build stops on the
    assertion first); engineSignNative on a verification proxy is stopped
    only by the assertion of a DEBUG build, and in a release build calls
    SGN_End on the verification context. *)
Theorem finalize_kind_checks
    (o : Oracle) (s : St) (sigArray j p ctxt arena : nat)
    (Hf : o_fields o = true) (Hsc : sigContext s = Some j)
    (Hj : lookup j (proxies s) = Some (Some p)) (Hp : p <> 0) (Hc : ctxt <> 0) :
  (lookup p (heap s) = Some (CProxy ctxt SGN_CONTEXT arena) ->
   match engineVerifyNative o sigArray s with
   | Done verified s' =>
     o_debug o = false /\ verified = false /\
     exn s' = Some SIGNATURE_EXCEPTION /\ trace s' = trace s
   | Crash c => o_debug o = true /\ c = AssertionFailure
   end) /\
  (lookup p (heap s) = Some (CProxy ctxt VFY_CONTEXT arena) ->
   match engineSignNative o s with
   | Done _ s' => o_debug o = false /\ trace s' = ESgnEnd ctxt :: trace s
   | Crash c => o_debug o = true /\ c = AssertionFailure
   end).
Proof.
  split; intros Hrec; unfold_code; destruct (o_debug o) eqn:Hd; crunch; auto.
Qed.

Lemma finalize_kind_checks_witness :
  match engineVerifyNative (all_ok (SEC_OID_OTHER 1)) 201 signing_state with
  | Done verified s' =>
    o_debug (all_ok (SEC_OID_OTHER 1)) = false /\ verified = false /\
    exn s' = Some SIGNATURE_EXCEPTION /\ trace s' = trace signing_state
  | Crash c => o_debug (all_ok (SEC_OID_OTHER 1)) = true /\ c = AssertionFailure
  end /\
  match engineSignNative (all_ok (SEC_OID_OTHER 1)) verifying_state with
  | Done _ s' =>
    o_debug (all_ok (SEC_OID_OTHER 1)) = false /\ trace s' = ESgnEnd 11 :: trace verifying_state
  | Crash c => o_debug (all_ok (SEC_OID_OTHER 1)) = true /\ c = AssertionFailure
  end.
Proof.
  split.
  - exact (proj1 (finalize_kind_checks (all_ok (SEC_OID_OTHER 1)) signing_state 201 101 12 11 0
      eq_refl eq_refl eq_refl ltac:(lia) ltac:(lia)) eq_refl).
  - exact (proj2 (finalize_kind_checks (all_ok (SEC_OID_OTHER 1)) verifying_state 201 101 12 11 0
      eq_refl eq_refl eq_refl ltac:(lia) ltac:(lia)) eq_refl).
Defined.

(** ** C10: the caller's byte arrays *)

(** C10: whenever engineUpdateNative or engineVerifyNative returns, on
    success as on every failure path, every managed byte array holds what
    it held before, and the borrowed native buffer has been given back
    (the native heap is as before). *)
Theorem update_and_verify_leave_arrays_unchanged
    (o : Oracle) (s : St) (bArray sigArray : nat) (offset length : Z) :
  match engineUpdateNative o bArray offset length s with
  | Done _ s' => arrays s' = arrays s /\ heap s' = heap s
  | Crash _ => True
  end /\
  match engineVerifyNative o sigArray s with
  | Done _ s' => arrays s' = arrays s /\ heap s' = heap s
  | Crash _ => True
  end.
Proof.
  split; unfold_code; crunch; auto.
Qed.

(** ** C4: clean-up in context creation *)

(** C4: on every path through initSigContext and initVfyContext, either
    no proxy was made and the native heap is exactly as before (whatever
    was allocated on the path, context, arena, placeholder keys, has been
    destroyed, each once), or a new SigContextProxy object, now stored in
    the sigContext field, holds a fresh record that owns the new context
    and, for RSA-PSS, the arena; nothing else is left allocated.  No path
    frees anything twice or touches freed memory: the only crash is the
    DEBUG-build assertion of a path without a pending exception. *)
Theorem init_contexts_clean_up (o : Oracle) (s : St) :
  match initSigContext o s with
  | Done _ s' =>
    (proxies s' = proxies s /\ heap s' = heap s) \/
    (exists j p ctxt arena blocks,
       proxies s' = (j, Some p) :: proxies s /\ sigContext s' = Some j /\
       heap s' = (p, CProxy ctxt SGN_CONTEXT arena) :: (ctxt, CSgnCtx) :: blocks ++ heap s /\
       ((arena = 0 /\ blocks = []) \/ exists bs, blocks = [(arena, CArena bs)]))
  | Crash c => c = AssertionFailure /\ o_debug o = true
  end /\
  match initVfyContext o s with
  | Done _ s' =>
    (proxies s' = proxies s /\ heap s' = heap s) \/
    (exists j p ctxt arena blocks,
       proxies s' = (j, Some p) :: proxies s /\ sigContext s' = Some j /\
       heap s' = (p, CProxy ctxt VFY_CONTEXT arena) :: (ctxt, CVfyCtx) :: blocks ++ heap s /\
       ((arena = 0 /\ blocks = []) \/ exists bs, blocks = [(arena, CArena bs)]))
  | Crash c => c = AssertionFailure /\ o_debug o = true
  end.
Proof.
  split; unfold_init; crunch_head; close_owned.
Qed.

(** ** C5: ownership transfer in JSS_PK11_wrapSigContextProxy *)

(** C5: for a live context and an arena that is NULL or live (and
    distinct from it), wrap never crashes and always hands back a NULL
    context and, when an arena was passed, a NULL arena.  On success a
    fresh proxy record, referenced only by the new managed SigContextProxy,
    holds the context and the arena; on failure the context and the arena
    are destroyed and nothing else in the native heap changes. *)
Theorem wrap_moves_ownership (o : Oracle) (s : St) (ctxt : nat) (type : SigContextType)
    (parena : option nat)
    (Hnd : NoDup (map fst (heap s)))
    (Hc : ctxt <> 0) (Hcl : lookup ctxt (heap s) <> None)
    (Ha : opt_ptr parena <> 0 ->
          opt_ptr parena <> ctxt /\ exists bs, lookup (opt_ptr parena) (heap s) = Some (CArena bs)) :
  match JSS_PK11_wrapSigContextProxy o ctxt type parena s with
  | Done (Context, ctxt', parena') s' =>
    ctxt' = 0 /\ parena' = option_map (fun _ => 0) parena /\
    match Context with
    | Some j =>
      heap s' = (S (next s), CProxy ctxt type (opt_ptr parena)) :: heap s /\
      proxies s' = (j, Some (S (next s))) :: proxies s
    | None =>
      proxies s' = proxies s /\
      lookup ctxt (heap s') = None /\
      (opt_ptr parena <> 0 -> lookup (opt_ptr parena) (heap s') = None) /\
      (forall x, x <> ctxt -> x <> opt_ptr parena -> lookup x (heap s') = lookup x (heap s))
    end
  | Crash _ => False
  end.
Proof.
  unfold_init.
  destruct (lookup ctxt (heap s)) eqn:Hl; [|congruence].
  destruct parena as [a|]; simpl in Ha;
    [destruct (Nat.eqb_spec a 0) as [->|Ha0];
     [|destruct (Ha Ha0) as [Hac [bs Hbs]]]|].
  all: crunch.
  all: repeat match goal with
       | |- _ /\ _ => split
       | |- _ -> _ => intros
       | |- forall _, _ => intros
       end; try reflexivity; try lia.
  all: repeat (rewrite lookup_remove_other by lia); try reflexivity.
  all: apply lookup_remove_same; auto using NoDup_remove.
Qed.

Lemma wrap_moves_ownership_witness :
  NoDup (map fst (heap wrap_state)) /\
  match JSS_PK11_wrapSigContextProxy (all_ok (SEC_OID_OTHER 1)) 11 SGN_CONTEXT (Some 5) wrap_state with
  | Done (Context, ctxt', parena') s' =>
    ctxt' = 0 /\ parena' = option_map (fun _ => 0) (Some 5) /\
    match Context with
    | Some j =>
      heap s' = (S (next wrap_state), CProxy 11 SGN_CONTEXT (opt_ptr (Some 5))) :: heap wrap_state /\
      proxies s' = (j, Some (S (next wrap_state))) :: proxies wrap_state
    | None =>
      proxies s' = proxies wrap_state /\
      lookup 11 (heap s') = None /\
      (opt_ptr (Some 5) <> 0 -> lookup (opt_ptr (Some 5)) (heap s') = None) /\
      (forall x, x <> 11 -> x <> opt_ptr (Some 5) -> lookup x (heap s') = lookup x (heap wrap_state))
    end
  | Crash _ => False
  end.
Proof.
  assert (Hnd : NoDup (map fst (heap wrap_state)))
    by (simpl; constructor; [simpl; intuition lia|constructor; [simpl; tauto|constructor]]).
  split; [exact Hnd|].
  refine (wrap_moves_ownership (all_ok (SEC_OID_OTHER 1)) wrap_state 11 SGN_CONTEXT (Some 5)
            Hnd _ _ _).
  - lia.
  - simpl; discriminate.
  - intros _; split; [simpl; lia|exists []; reflexivity].
Defined.

(** ** C6: the RSA-PSS parameter builder *)

(** C6: for a live arena and any key, getRSAPSSParamsAndSigningAlg never
    crashes.  On success it has, in this order, allocated a zeroed
    AlgorithmID in the arena, created the PSS parameters in the arena for
    RSA-PSS with the resolved digest (SEC_OID_UNKNOWN when the field is
    null) and the given key, and set the AlgorithmID to RSA-PSS with those
    parameters; the out-parameter points to that AlgorithmID.  On failure
    an OutOfMemoryError or a TokenException is pending.  On every path the
    only native memory that changes is the arena, which gains blocks, and
    the managed state is untouched; the out-parameter keeps its value
    except after a failed SECOID_SetAlgorithmID, where it points to the
    zeroed AlgorithmID block in the arena. *)
Theorem rsapss_params_steps (o : Oracle) (s : St) (arena : nat) (key : KeyRef)
    (bs : list (nat * Block)) (Harena : lookup arena (heap s) = Some (CArena bs)) :
  match getRSAPSSParamsAndSigningAlg o arena (Some 0) key s with
  | Done (rv, palg) s' =>
    proxies s' = proxies s /\ sigContext s' = sigContext s /\ arrays s' = arrays s /\
    if rv then
      exists alg params,
        palg = Some alg /\
        trace s' = ESetAlgorithmID arena alg SEC_OID_PKCS1_RSA_PSS_SIGNATURE params
                   :: ECreateParams arena SEC_OID_PKCS1_RSA_PSS_SIGNATURE
                        (if o_fields o then
                           match o_digest o with Some t => t | None => SEC_OID_UNKNOWN end
                         else SEC_OID_UNKNOWN) key
                   :: EArenaZAlloc arena :: trace s /\
        heap s' = update_key arena
                    (CArena ((params, BParams SEC_OID_PKCS1_RSA_PSS_SIGNATURE
                                (if o_fields o then
                                   match o_digest o with Some t => t | None => SEC_OID_UNKNOWN end
                                 else SEC_OID_UNKNOWN) key)
                             :: (alg, BAlgId SEC_OID_PKCS1_RSA_PSS_SIGNATURE params) :: bs))
                    (heap s)
    else
      (exn s' = Some OUT_OF_MEMORY_ERROR \/ exn s' = Some TOKEN_EXCEPTION) /\
      exists added, heap s' = update_key arena (CArena (added ++ bs)) (heap s) /\
      (palg = Some 0 \/ exists alg, palg = Some alg /\ lookup alg added = Some BZeroAlgId)
  | Crash _ => False
  end.
Proof.
  unfold_init.
  crunch_head.
  all: simpl in *; try discriminate; try congruence.
  all: repeat split; try reflexivity.
  all: first
    [ do 2 eexists; split; [reflexivity|split; reflexivity]
    | left; reflexivity
    | right; reflexivity
    | exists []; split; [simpl; symmetry; now apply update_key_lookup|left; reflexivity]
    | eexists [_]; split; [reflexivity|left; reflexivity]
    | eexists [_; _]; split; [reflexivity|right; eexists; split; [reflexivity|go; reflexivity]] ].
Qed.

Lemma rsapss_params_steps_witness :
  lookup 5 (heap arena_state) = Some (CArena []) /\
  match getRSAPSSParamsAndSigningAlg (all_ok SEC_OID_PKCS1_RSA_PSS_SIGNATURE) 5 (Some 0)
          (KeyObj 7) arena_state with
  | Done (rv, palg) s' =>
    proxies s' = proxies arena_state /\ sigContext s' = sigContext arena_state /\
    arrays s' = arrays arena_state /\
    if rv then
      exists alg params,
        palg = Some alg /\
        trace s' = ESetAlgorithmID 5 alg SEC_OID_PKCS1_RSA_PSS_SIGNATURE params
                   :: ECreateParams 5 SEC_OID_PKCS1_RSA_PSS_SIGNATURE
                        (if o_fields (all_ok SEC_OID_PKCS1_RSA_PSS_SIGNATURE) then
                           match o_digest (all_ok SEC_OID_PKCS1_RSA_PSS_SIGNATURE) with
                           | Some t => t | None => SEC_OID_UNKNOWN end
                         else SEC_OID_UNKNOWN) (KeyObj 7)
                   :: EArenaZAlloc 5 :: trace arena_state /\
        heap s' = update_key 5
                    (CArena ((params, BParams SEC_OID_PKCS1_RSA_PSS_SIGNATURE
                                (if o_fields (all_ok SEC_OID_PKCS1_RSA_PSS_SIGNATURE) then
                                   match o_digest (all_ok SEC_OID_PKCS1_RSA_PSS_SIGNATURE) with
                                   | Some t => t | None => SEC_OID_UNKNOWN end
                                 else SEC_OID_UNKNOWN) (KeyObj 7))
                             :: (alg, BAlgId SEC_OID_PKCS1_RSA_PSS_SIGNATURE params) :: []))
                    (heap arena_state)
    else
      (exn s' = Some OUT_OF_MEMORY_ERROR \/ exn s' = Some TOKEN_EXCEPTION) /\
      exists added, heap s' = update_key 5 (CArena (added ++ [])) (heap arena_state) /\
      (palg = Some 0 \/ exists alg, palg = Some alg /\ lookup alg added = Some BZeroAlgId)
  | Crash _ => False
  end.
Proof.
  split; [reflexivity|].
  exact (rsapss_params_steps (all_ok SEC_OID_PKCS1_RSA_PSS_SIGNATURE) arena_state 5 (KeyObj 7) []
           eq_refl).
Defined.

(** ** C7: the placeholder key of an RSA-PSS verification *)

(** C7: for an RSA-PSS verification with public key [k], initVfyContext
    never crashes; the only RSA key it creates has the strength of [k];
    the placeholder private key (the first address it allocates) is
    handed to nothing but the creation of the PSS parameters; every
    verification context is created from [k]; and neither the placeholder
    private key nor its public half is allocated when initVfyContext
    returns, on any path. *)
Theorem pss_placeholder_key_confined (o : Oracle) (s : St) (k : nat)
    (Hk : o_key o = Some k) (Hpss : o_alg o = Some SEC_OID_PKCS1_RSA_PSS_SIGNATURE)
    (Hfresh : forall a, next s < a -> lookup a (heap s) = None)
    (Htr : trace s = []) :
  match initVfyContext o s with
  | Done _ s' =>
    Forall (fun e => match e with
                     | ECreateRSAPrivateKey bits => bits = o_strength o (KeyObj k)
                     | ECreateParams _ _ _ key => key = KeyTmp (S (next s))
                     | EVfyCreateContext key _ => key = KeyObj k
                     | EVfyCreateContextWithAlgorithmID key _ _ => key = KeyObj k
                     | _ => True
                     end) (trace s') /\
    lookup (S (next s)) (heap s') = None /\ lookup (S (S (next s))) (heap s') = None
  | Crash _ => False
  end.
Proof.
  pose proof (Hfresh (S (next s)) ltac:(lia)) as H1.
  pose proof (Hfresh (S (S (next s))) ltac:(lia)) as H2.
  unfold_init.
  crunch_head.
  all: split; [repeat constructor; reflexivity|split; reflexivity].
Qed.

Lemma pss_placeholder_key_confined_witness :
  match initVfyContext (all_ok SEC_OID_PKCS1_RSA_PSS_SIGNATURE) fresh_state with
  | Done _ s' =>
    Forall (fun e => match e with
                     | ECreateRSAPrivateKey bits =>
                       bits = o_strength (all_ok SEC_OID_PKCS1_RSA_PSS_SIGNATURE) (KeyObj 7)
                     | ECreateParams _ _ _ key => key = KeyTmp (S (next fresh_state))
                     | EVfyCreateContext key _ => key = KeyObj 7
                     | EVfyCreateContextWithAlgorithmID key _ _ => key = KeyObj 7
                     | _ => True
                     end) (trace s') /\
    lookup (S (next fresh_state)) (heap s') = None /\
    lookup (S (S (next fresh_state))) (heap s') = None
  | Crash _ => False
  end.
Proof.
  exact (pss_placeholder_key_confined (all_ok SEC_OID_PKCS1_RSA_PSS_SIGNATURE) fresh_state 7
           eq_refl eq_refl (fun _ _ => eq_refl) eq_refl).
Defined.

(** ** C8: null algorithm fields *)



(** * Further properties of the code *)

(** ** jint arithmetic of the bounds test *)

Lemma jint_add_in_range (a b : Z) :
  (- 2 ^ 31 <= a + b < 2 ^ 31)%Z -> jint_add a b = (a + b)%Z.
Proof.
  intros H; unfold jint_add. rewrite Z.mod_small by lia; lia.
Qed.

Lemma jint_add_overflow (a b : Z) :
  (2 ^ 31 <= a + b < 2 ^ 32)%Z -> jint_add a b = (a + b - 2 ^ 32)%Z.
Proof.
  intros H; unfold jint_add.
  rewrite <- (Z.mod_unique (a + b + 2 ^ 31) (2 ^ 32) 1 (a + b + 2 ^ 31 - 2 ^ 32)); lia.
Qed.

(** For jint arguments and an array length that fits in a jint, the
    bounds test of engineUpdateNative accepts exactly the requests with
    [0 <= offset < numBytes], [0 <= length] and
    [offset + length <= numBytes]; the wrap-around of [offset + length]
    is caught. *)
Theorem update_bounds_iff (offset length numBytes : Z)
    (Ho : (- 2 ^ 31 <= offset < 2 ^ 31)%Z) (Hl : (- 2 ^ 31 <= length < 2 ^ 31)%Z)
    (Hn : (0 <= numBytes < 2 ^ 31)%Z) :
  update_out_of_bounds offset length numBytes = false <->
  (0 <= offset < numBytes /\ 0 <= length /\ offset + length <= numBytes)%Z.
Proof.
  unfold update_out_of_bounds.
  rewrite !orb_false_iff, !Z.ltb_ge, Z.leb_gt.
  destruct (Z_lt_le_dec offset 0) as [Hneg|Hpos].
  - split; intros; lia.
  - destruct (Z_lt_le_dec length 0) as [Hlneg|Hlpos].
    + split; intros; lia.
    + destruct (Z_lt_le_dec (offset + length) (2 ^ 31)) as [Hs|Hb].
      * rewrite jint_add_in_range by lia; split; intros; lia.
      * rewrite jint_add_overflow by lia; split; intros; lia.
Qed.

Lemma update_bounds_iff_witness :
  update_out_of_bounds (2 ^ 31 - 1) 1 4 = false <->
  (0 <= 2 ^ 31 - 1 < 4 /\ 0 <= 1 /\ 2 ^ 31 - 1 + 1 <= 4)%Z.
Proof.
  apply (update_bounds_iff (2 ^ 31 - 1) 1 4); lia.
Defined.

(** ** engineUpdateNative *)

(** An in-bounds update on a live context passes exactly the bytes
    [offset, offset + length) of the array to SGN_Update or VFY_Update,
    according to the context's type; a failure of that call raises a
    SignatureException (no assertion); the native heap and the managed
    arrays are as before. *)
Theorem engineUpdateNative_in_bounds
    (o : Oracle) (s : St) (bArray j p ctxt arena : nat) (type : SigContextType)
    (data : list Z) (offset length : Z)
    (Hf : o_fields o = true) (Hsc : sigContext s = Some j)
    (Hj : lookup j (proxies s) = Some (Some p)) (Hp : p <> 0)
    (Hrec : lookup p (heap s) = Some (CProxy ctxt type arena)) (Hc : ctxt <> 0)
    (Harr : lookup bArray (arrays s) = Some data) (Href : o_ref o = true)
    (Hin : update_out_of_bounds offset length (Z.of_nat (List.length data)) = false) :
  match engineUpdateNative o bArray offset length s with
  | Done _ s' =>
    heap s' = heap s /\ arrays s' = arrays s /\
    trace s' = match type with
               | SGN_CONTEXT => ESgnUpdate ctxt (slice data offset length)
               | VFY_CONTEXT => EVfyUpdate ctxt (slice data offset length)
               end :: trace s /\
    exn s' = match o_update o with NOk => exn s | NFail _ => Some SIGNATURE_EXCEPTION end
  | Crash _ => False
  end.
Proof.
  unfold_code.
  destruct type; crunch; auto.
Qed.

Lemma engineUpdateNative_in_bounds_witness :
  match engineUpdateNative (all_ok (SEC_OID_OTHER 1)) 200 1 2 signing_state with
  | Done _ s' =>
    heap s' = heap signing_state /\ arrays s' = arrays signing_state /\
    trace s' = ESgnUpdate 11 (slice [1; 2; 3; 4]%Z 1 2) :: trace signing_state /\
    exn s' = match o_update (all_ok (SEC_OID_OTHER 1)) with
             | NOk => exn signing_state
             | NFail _ => Some SIGNATURE_EXCEPTION
             end
  | Crash _ => False
  end.
Proof.
  exact (engineUpdateNative_in_bounds (all_ok (SEC_OID_OTHER 1)) signing_state 200 101 12 11 0
           SGN_CONTEXT [1; 2; 3; 4]%Z 1 2 eq_refl eq_refl eq_refl ltac:(lia) eq_refl
           ltac:(lia) eq_refl eq_refl eq_refl).
Defined.

(** A request the bounds test rejects raises an
    ArrayIndexOutOfBoundsException and calls nothing: no update event,
    native heap and managed arrays as before. *)
Theorem engineUpdateNative_out_of_bounds
    (o : Oracle) (s : St) (bArray j p ctxt arena : nat) (type : SigContextType)
    (data : list Z) (offset length : Z)
    (Hf : o_fields o = true) (Hsc : sigContext s = Some j)
    (Hj : lookup j (proxies s) = Some (Some p)) (Hp : p <> 0)
    (Hrec : lookup p (heap s) = Some (CProxy ctxt type arena)) (Hc : ctxt <> 0)
    (Harr : lookup bArray (arrays s) = Some data) (Href : o_ref o = true)
    (Hout : update_out_of_bounds offset length (Z.of_nat (List.length data)) = true) :
  match engineUpdateNative o bArray offset length s with
  | Done _ s' =>
    heap s' = heap s /\ arrays s' = arrays s /\ trace s' = trace s /\
    exn s' = Some ARRAY_INDEX_OUT_OF_BOUNDS_EXCEPTION
  | Crash _ => False
  end.
Proof.
  unfold_code; crunch; auto.
Qed.

Lemma engineUpdateNative_out_of_bounds_witness :
  match engineUpdateNative (all_ok (SEC_OID_OTHER 1)) 200 4 0 signing_state with
  | Done _ s' =>
    heap s' = heap signing_state /\ arrays s' = arrays signing_state /\
    trace s' = trace signing_state /\
    exn s' = Some ARRAY_INDEX_OUT_OF_BOUNDS_EXCEPTION
  | Crash _ => False
  end.
Proof.
  exact (engineUpdateNative_out_of_bounds (all_ok (SEC_OID_OTHER 1)) signing_state 200 101 12 11 0
           SGN_CONTEXT [1; 2; 3; 4]%Z 4 0 eq_refl eq_refl eq_refl ltac:(lia) eq_refl
           ltac:(lia) eq_refl eq_refl eq_refl).
Defined.

(** ** engineSignNative *)

(** Finishing a live signing context calls SGN_End on it once.  On
    success the result is a new managed array holding the signature
    bytes; if that array cannot be made the result is NULL with an
    OutOfMemoryError; a failing SGN_End gives NULL with a
    SignatureException.  The buffer SGN_End returned is freed in every
    case: the native heap is as before. *)
Theorem engineSignNative_on_signing_proxy
    (o : Oracle) (s : St) (j p ctxt arena : nat)
    (Hf : o_fields o = true) (Hsc : sigContext s = Some j)
    (Hj : lookup j (proxies s) = Some (Some p)) (Hp : p <> 0)
    (Hrec : lookup p (heap s) = Some (CProxy ctxt SGN_CONTEXT arena)) (Hc : ctxt <> 0) :
  match engineSignNative o s with
  | Done r s' =>
    heap s' = heap s /\ trace s' = ESgnEnd ctxt :: trace s /\
    match o_sgn_end o with
    | NOk =>
      if o_to_byte_array o then
        r = Some (S (jnext s)) /\ arrays s' = (S (jnext s), o_signature o) :: arrays s /\
        exn s' = exn s
      else r = None /\ arrays s' = arrays s /\ exn s' = Some OUT_OF_MEMORY_ERROR
    | NFail code =>
      r = None /\ arrays s' = arrays s /\ exn s' = Some SIGNATURE_EXCEPTION /\ prerr s' = code
    end
  | Crash _ => False
  end.
Proof.
  unfold_code; crunch; repeat split; auto.
Qed.

Lemma engineSignNative_on_signing_proxy_witness :
  match engineSignNative (all_ok (SEC_OID_OTHER 1)) signing_state with
  | Done r s' =>
    heap s' = heap signing_state /\ trace s' = ESgnEnd 11 :: trace signing_state /\
    match o_sgn_end (all_ok (SEC_OID_OTHER 1)) with
    | NOk =>
      if o_to_byte_array (all_ok (SEC_OID_OTHER 1)) then
        r = Some (S (jnext signing_state)) /\
        arrays s' = (S (jnext signing_state), o_signature (all_ok (SEC_OID_OTHER 1)))
                      :: arrays signing_state /\
        exn s' = exn signing_state
      else r = None /\ arrays s' = arrays signing_state /\ exn s' = Some OUT_OF_MEMORY_ERROR
    | NFail code =>
      r = None /\ arrays s' = arrays signing_state /\ exn s' = Some SIGNATURE_EXCEPTION /\
      prerr s' = code
    end
  | Crash _ => False
  end.
Proof.
  exact (engineSignNative_on_signing_proxy (all_ok (SEC_OID_OTHER 1)) signing_state 101 12 11 0
           eq_refl eq_refl eq_refl ltac:(lia) eq_refl ltac:(lia)).
Defined.

(** ** Operations without a context *)

(** On a signature object with no context proxy, engineUpdateNative and
    engineSignNative raise a TokenException and engineVerifyNative raises
    a SignatureException and returns false (a DEBUG build stops on the
    assertion first); none of them calls into NSS or touches the native
    heap. *)
Theorem no_context_rejected (o : Oracle) (s : St) (bArray sigArray : nat) (offset length : Z)
    (Hf : o_fields o = true) (Hsc : sigContext s = None) :
  match engineUpdateNative o bArray offset length s with
  | Done _ s' =>
    o_debug o = false /\ exn s' = Some TOKEN_EXCEPTION /\ heap s' = heap s /\ trace s' = trace s
  | Crash c => o_debug o = true /\ c = AssertionFailure
  end /\
  match engineSignNative o s with
  | Done r s' =>
    o_debug o = false /\ r = None /\ exn s' = Some TOKEN_EXCEPTION /\
    heap s' = heap s /\ trace s' = trace s
  | Crash c => o_debug o = true /\ c = AssertionFailure
  end /\
  match engineVerifyNative o sigArray s with
  | Done r s' =>
    o_debug o = false /\ r = false /\ exn s' = Some SIGNATURE_EXCEPTION /\
    heap s' = heap s /\ trace s' = trace s
  | Crash c => o_debug o = true /\ c = AssertionFailure
  end.
Proof.
  repeat split; unfold_code; destruct (o_debug o) eqn:Hd; crunch; auto.
Qed.

Lemma no_context_rejected_witness :
  match engineUpdateNative (all_ok (SEC_OID_OTHER 1)) 200 0 4 fresh_state with
  | Done _ s' =>
    o_debug (all_ok (SEC_OID_OTHER 1)) = false /\ exn s' = Some TOKEN_EXCEPTION /\
    heap s' = heap fresh_state /\ trace s' = trace fresh_state
  | Crash c => o_debug (all_ok (SEC_OID_OTHER 1)) = true /\ c = AssertionFailure
  end /\
  match engineSignNative (all_ok (SEC_OID_OTHER 1)) fresh_state with
  | Done r s' =>
    o_debug (all_ok (SEC_OID_OTHER 1)) = false /\ r = None /\ exn s' = Some TOKEN_EXCEPTION /\
    heap s' = heap fresh_state /\ trace s' = trace fresh_state
  | Crash c => o_debug (all_ok (SEC_OID_OTHER 1)) = true /\ c = AssertionFailure
  end /\
  match engineVerifyNative (all_ok (SEC_OID_OTHER 1)) 200 fresh_state with
  | Done r s' =>
    o_debug (all_ok (SEC_OID_OTHER 1)) = false /\ r = false /\
    exn s' = Some SIGNATURE_EXCEPTION /\
    heap s' = heap fresh_state /\ trace s' = trace fresh_state
  | Crash c => o_debug (all_ok (SEC_OID_OTHER 1)) = true /\ c = AssertionFailure
  end.
Proof.
  exact (no_context_rejected (all_ok (SEC_OID_OTHER 1)) fresh_state 200 200 0 4 eq_refl eq_refl).
Defined.

(** A proxy whose record has been released (the pointer is kept, the
    record freed) is used after free by engineUpdateNative,
    engineSignNative and engineVerifyNative alike: getSigContext reads
    the freed record. *)
Theorem freed_record_use_after_free (o : Oracle) (s : St) (bArray sigArray j p : nat)
    (offset length : Z)
    (Hf : o_fields o = true) (Hsc : sigContext s = Some j)
    (Hj : lookup j (proxies s) = Some (Some p)) (Hp : p <> 0)
    (Hfreed : lookup p (heap s) = None) :
  engineUpdateNative o bArray offset length s = Crash UseAfterFree /\
  engineSignNative o s = Crash UseAfterFree /\
  engineVerifyNative o sigArray s = Crash UseAfterFree.
Proof.
  repeat split; unfold_code; crunch; auto.
Qed.

Lemma freed_record_use_after_free_witness :
  engineUpdateNative (all_ok (SEC_OID_OTHER 1)) 200 0 4 released_state = Crash UseAfterFree /\
  engineSignNative (all_ok (SEC_OID_OTHER 1)) released_state = Crash UseAfterFree /\
  engineVerifyNative (all_ok (SEC_OID_OTHER 1)) 200 released_state = Crash UseAfterFree.
Proof.
  exact (freed_record_use_after_free (all_ok (SEC_OID_OTHER 1)) released_state 200 200 101 12 0 4
           eq_refl eq_refl eq_refl ltac:(lia) eq_refl).
Defined.

(** A proxy holding a NULL record pointer is rejected by
    JSS_PK11_getSigContext: engineUpdateNative and engineSignNative raise
    a SignatureException, engineVerifyNative raises one and returns false
    (a DEBUG build stops on the assertion first); nothing is called and
    the native heap is as before. *)
Theorem null_proxy_pointer_rejected (o : Oracle) (s : St) (bArray sigArray j : nat)
    (offset length : Z)
    (Hf : o_fields o = true) (Hsc : sigContext s = Some j)
    (Hj : lookup j (proxies s) = Some (Some 0)) :
  match engineUpdateNative o bArray offset length s with
  | Done _ s' =>
    o_debug o = false /\ exn s' = Some SIGNATURE_EXCEPTION /\ heap s' = heap s /\
    trace s' = trace s
  | Crash c => o_debug o = true /\ c = AssertionFailure
  end /\
  match engineSignNative o s with
  | Done r s' =>
    o_debug o = false /\ r = None /\ exn s' = Some SIGNATURE_EXCEPTION /\
    heap s' = heap s /\ trace s' = trace s
  | Crash c => o_debug o = true /\ c = AssertionFailure
  end /\
  match engineVerifyNative o sigArray s with
  | Done r s' =>
    o_debug o = false /\ r = false /\ exn s' = Some SIGNATURE_EXCEPTION /\
    heap s' = heap s /\ trace s' = trace s
  | Crash c => o_debug o = true /\ c = AssertionFailure
  end.
Proof.
  repeat split; unfold_code; destruct (o_debug o) eqn:Hd; crunch; auto.
Qed.

Lemma null_proxy_pointer_rejected_witness :
  match engineUpdateNative (all_ok (SEC_OID_OTHER 1)) 200 0 4 null_proxy_state with
  | Done _ s' =>
    o_debug (all_ok (SEC_OID_OTHER 1)) = false /\ exn s' = Some SIGNATURE_EXCEPTION /\
    heap s' = heap null_proxy_state /\ trace s' = trace null_proxy_state
  | Crash c => o_debug (all_ok (SEC_OID_OTHER 1)) = true /\ c = AssertionFailure
  end /\
  match engineSignNative (all_ok (SEC_OID_OTHER 1)) null_proxy_state with
  | Done r s' =>
    o_debug (all_ok (SEC_OID_OTHER 1)) = false /\ r = None /\
    exn s' = Some SIGNATURE_EXCEPTION /\
    heap s' = heap null_proxy_state /\ trace s' = trace null_proxy_state
  | Crash c => o_debug (all_ok (SEC_OID_OTHER 1)) = true /\ c = AssertionFailure
  end /\
  match engineVerifyNative (all_ok (SEC_OID_OTHER 1)) 200 null_proxy_state with
  | Done r s' =>
    o_debug (all_ok (SEC_OID_OTHER 1)) = false /\ r = false /\
    exn s' = Some SIGNATURE_EXCEPTION /\
    heap s' = heap null_proxy_state /\ trace s' = trace null_proxy_state
  | Crash c => o_debug (all_ok (SEC_OID_OTHER 1)) = true /\ c = AssertionFailure
  end.
Proof.
  exact (null_proxy_pointer_rejected (all_ok (SEC_OID_OTHER 1)) null_proxy_state 200 200 101 0 4
           eq_refl eq_refl eq_refl).
Defined.

(** ** engineVerifyNative *)

(** Finishing a live verification context passes the signature bytes to
    VFY_EndWithSignature once and returns true exactly when it succeeds;
    a bad-signature failure returns false with nothing raised, any other
    failure raises a SignatureException in a release build and stops on
    the assertion in a DEBUG build.  The native heap and managed arrays
    are as before. *)
Theorem verify_on_verify_context (o : Oracle) (s : St) (sigArray j p ctxt arena : nat)
    (sg : list Z)
    (Hf : o_fields o = true) (Hsc : sigContext s = Some j)
    (Hj : lookup j (proxies s) = Some (Some p)) (Hp : p <> 0)
    (Hrec : lookup p (heap s) = Some (CProxy ctxt VFY_CONTEXT arena)) (Hc : ctxt <> 0)
    (Harr : lookup sigArray (arrays s) = Some sg) (Href : o_ref o = true) :
  match engineVerifyNative o sigArray s with
  | Done r s' =>
    heap s' = heap s /\ arrays s' = arrays s /\
    trace s' = EVfyEndWithSignature ctxt sg :: trace s /\
    match o_vfy_end o with
    | NOk => r = true /\ exn s' = exn s
    | NFail code =>
      r = false /\
      if (code =? SEC_ERROR_BAD_SIGNATURE)%Z then exn s' = exn s
      else exn s' = Some SIGNATURE_EXCEPTION /\ o_debug o = false
    end
  | Crash c =>
    c = AssertionFailure /\ o_debug o = true /\
    exists code, o_vfy_end o = NFail code /\ code <> SEC_ERROR_BAD_SIGNATURE
  end.
Proof.
  unfold_code; destruct (o_vfy_end o) as [|code] eqn:Hv;
    [| destruct (code =? SEC_ERROR_BAD_SIGNATURE)%Z eqn:Hcode];
    destruct (o_debug o) eqn:Hd; crunch; repeat split; auto;
    exists code; split; [reflexivity | apply Z.eqb_neq; exact Hcode].
Qed.

Lemma verify_on_verify_context_witness :
  match engineVerifyNative (all_ok (SEC_OID_OTHER 1)) 201 verifying_state with
  | Done r s' =>
    heap s' = heap verifying_state /\ arrays s' = arrays verifying_state /\
    trace s' = EVfyEndWithSignature 11 [5; 6]%Z :: trace verifying_state /\
    match o_vfy_end (all_ok (SEC_OID_OTHER 1)) with
    | NOk => r = true /\ exn s' = exn verifying_state
    | NFail code =>
      r = false /\
      if (code =? SEC_ERROR_BAD_SIGNATURE)%Z then exn s' = exn verifying_state
      else exn s' = Some SIGNATURE_EXCEPTION /\ o_debug (all_ok (SEC_OID_OTHER 1)) = false
    end
  | Crash c =>
    c = AssertionFailure /\ o_debug (all_ok (SEC_OID_OTHER 1)) = true /\
    exists code, o_vfy_end (all_ok (SEC_OID_OTHER 1)) = NFail code /\
                 code <> SEC_ERROR_BAD_SIGNATURE
  end.
Proof.
  exact (verify_on_verify_context (all_ok (SEC_OID_OTHER 1)) verifying_state 201 101 12 11 0
           [5; 6]%Z eq_refl eq_refl eq_refl ltac:(lia) eq_refl ltac:(lia) eq_refl eq_refl).
Defined.

(** ** Context creation *)

(** With every call succeeding and a signature algorithm other than
    RSA-PSS, initSigContext (initVfyContext) makes exactly two NSS calls,
    SGN_NewContext (VFY_CreateContext) with the object's key and
    algorithm and then SGN_Begin (VFY_Begin) on the new context, and ends
    with a new proxy record owning that context and no arena, stored as
    the object's context proxy.  Nothing else changes: a context proxy
    the object held before is replaced without being released. *)
Theorem init_non_pss_success (o : Oracle) (s : St) (k : nat) (alg : SECOidTag)
    (Hf : o_fields o = true) (Hk : o_key o = Some k) (Hkp : o_key_ptr o = true)
    (Ha : o_alg o = Some alg) (Hnp : is_pss alg = false)
    (Hctx : o_new_ctx o = true) (Hb : o_begin o = true) (Hm : o_malloc o = true)
    (Hfc : o_find_class o = true) (Hme : o_method o = true) (Hno : o_new_object o = true) :
  initSigContext o s =
    Done tt (mkSt (S (S (next s)))
                  ((S (S (next s)), CProxy (S (next s)) SGN_CONTEXT 0)
                     :: (S (next s), CSgnCtx) :: heap s)
                  (exn s) (prerr s)
                  ((S (jnext s), Some (S (S (next s)))) :: proxies s)
                  (Some (S (jnext s))) (arrays s) (S (jnext s))
                  (ESgnBegin (S (next s)) :: ESgnNewContext alg (KeyObj k) :: trace s)) /\
  initVfyContext o s =
    Done tt (mkSt (S (S (next s)))
                  ((S (S (next s)), CProxy (S (next s)) VFY_CONTEXT 0)
                     :: (S (next s), CVfyCtx) :: heap s)
                  (exn s) (prerr s)
                  ((S (jnext s), Some (S (S (next s)))) :: proxies s)
                  (Some (S (jnext s))) (arrays s) (S (jnext s))
                  (EVfyBegin (S (next s)) :: EVfyCreateContext (KeyObj k) alg :: trace s)).
Proof.
  destruct alg; try discriminate; split; unfold_init; crunch_head; reflexivity.
Qed.

Lemma init_non_pss_success_witness :
  initSigContext (all_ok (SEC_OID_OTHER 1)) signing_state =
    Done tt (mkSt 14 [(14, CProxy 13 SGN_CONTEXT 0); (13, CSgnCtx);
                      (12, CProxy 11 SGN_CONTEXT 0); (11, CSgnCtx)]
                  None 0%Z [(102, Some 14); (101, Some 12)] (Some 102)
                  [(200, [1; 2; 3; 4]%Z)] 102
                  [ESgnBegin 13; ESgnNewContext (SEC_OID_OTHER 1) (KeyObj 7);
                   ESgnBegin 11; ESgnNewContext (SEC_OID_OTHER 1) (KeyObj 7)]) /\
  initVfyContext (all_ok (SEC_OID_OTHER 1)) fresh_state =
    Done tt (mkSt 12 [(12, CProxy 11 VFY_CONTEXT 0); (11, CVfyCtx)]
                  None 0%Z [(101, Some 12)] (Some 101) [(200, [1; 2; 3; 4]%Z)] 101
                  [EVfyBegin 11; EVfyCreateContext (KeyObj 7) (SEC_OID_OTHER 1)]).
Proof.
  split.
  - exact (proj1 (init_non_pss_success (all_ok (SEC_OID_OTHER 1)) signing_state 7 (SEC_OID_OTHER 1)
             eq_refl eq_refl eq_refl eq_refl eq_refl eq_refl eq_refl eq_refl eq_refl eq_refl
             eq_refl)).
  - exact (proj2 (init_non_pss_success (all_ok (SEC_OID_OTHER 1)) fresh_state 7 (SEC_OID_OTHER 1)
             eq_refl eq_refl eq_refl eq_refl eq_refl eq_refl eq_refl eq_refl eq_refl eq_refl
             eq_refl)).
Defined.

(** With every call succeeding and RSA-PSS as the algorithm,
    initSigContext makes, in order: PORT_NewArena, PORT_ArenaZAlloc of
    the AlgorithmID in the new arena, SEC_CreateSignatureAlgorithmParameters
    for RSA-PSS with the digest algorithm (SEC_OID_UNKNOWN for a null
    field) and the object's key, SECOID_SetAlgorithmID, then
    SGN_NewContextWithAlgorithmID on that AlgorithmID and SGN_Begin.  It
    ends with a new proxy record owning the context and the arena, which
    holds the AlgorithmID and its parameters. *)
Theorem initSigContext_pss_success (o : Oracle) (s : St) (k : nat) (d : SECOidTag)
    (Hf : o_fields o = true) (Hk : o_key o = Some k) (Hkp : o_key_ptr o = true)
    (Ha : o_alg o = Some SEC_OID_PKCS1_RSA_PSS_SIGNATURE)
    (Hd : o_digest o = Some d \/ (o_digest o = None /\ d = SEC_OID_UNKNOWN))
    (Hna : o_new_arena o = true) (Hz : o_zalloc o = true) (Hpa : o_params o = true)
    (Hsa : o_set_algid o = true)
    (Hctx : o_new_ctx o = true) (Hb : o_begin o = true) (Hm : o_malloc o = true)
    (Hfc : o_find_class o = true) (Hme : o_method o = true) (Hno : o_new_object o = true) :
  let n := next s in
  initSigContext o s =
    Done tt (mkSt (5 + n)
                  ((5 + n, CProxy (4 + n) SGN_CONTEXT (1 + n))
                     :: (4 + n, CSgnCtx)
                     :: (1 + n, CArena [(3 + n, BParams SEC_OID_PKCS1_RSA_PSS_SIGNATURE d (KeyObj k));
                                        (2 + n, BAlgId SEC_OID_PKCS1_RSA_PSS_SIGNATURE (3 + n))])
                     :: heap s)
                  (exn s) (prerr s)
                  ((S (jnext s), Some (5 + n)) :: proxies s)
                  (Some (S (jnext s))) (arrays s) (S (jnext s))
                  ([ESgnBegin (4 + n);
                    ESgnNewContextWithAlgorithmID (2 + n) (KeyObj k);
                    ESetAlgorithmID (1 + n) (2 + n) SEC_OID_PKCS1_RSA_PSS_SIGNATURE (3 + n);
                    ECreateParams (1 + n) SEC_OID_PKCS1_RSA_PSS_SIGNATURE d (KeyObj k);
                    EArenaZAlloc (1 + n); ENewArena] ++ trace s)).
Proof.
  destruct Hd as [Hd|[Hd ->]]; unfold_init; crunch_head; reflexivity.
Qed.

Lemma initSigContext_pss_success_witness :
  initSigContext (all_ok SEC_OID_PKCS1_RSA_PSS_SIGNATURE) fresh_state =
    Done tt (mkSt 15
                  [(15, CProxy 14 SGN_CONTEXT 11); (14, CSgnCtx);
                   (11, CArena [(13, BParams SEC_OID_PKCS1_RSA_PSS_SIGNATURE SEC_OID_UNKNOWN
                                           (KeyObj 7));
                                (12, BAlgId SEC_OID_PKCS1_RSA_PSS_SIGNATURE 13)])]
                  None 0%Z [(101, Some 15)] (Some 101) [(200, [1; 2; 3; 4]%Z)] 101
                  [ESgnBegin 14; ESgnNewContextWithAlgorithmID 12 (KeyObj 7);
                   ESetAlgorithmID 11 12 SEC_OID_PKCS1_RSA_PSS_SIGNATURE 13;
                   ECreateParams 11 SEC_OID_PKCS1_RSA_PSS_SIGNATURE SEC_OID_UNKNOWN (KeyObj 7);
                   EArenaZAlloc 11; ENewArena]).
Proof.
  exact (initSigContext_pss_success (all_ok SEC_OID_PKCS1_RSA_PSS_SIGNATURE) fresh_state 7
           SEC_OID_UNKNOWN eq_refl eq_refl eq_refl eq_refl (or_intror (conj eq_refl eq_refl))
           eq_refl eq_refl eq_refl eq_refl eq_refl eq_refl eq_refl eq_refl eq_refl eq_refl).
Defined.

(** With every call succeeding and RSA-PSS as the algorithm,
    initVfyContext creates a placeholder RSA key pair of the public key's
    strength, builds the RSA-PSS AlgorithmID in a new arena with
    parameters for the placeholder key, creates the verification context
    with VFY_CreateContextWithAlgorithmID for the object's public key,
    that AlgorithmID and the digest algorithm, and begins it.  It ends
    with a new proxy record owning the context and the arena; the two
    placeholder keys are destroyed. *)
Theorem initVfyContext_pss_success (o : Oracle) (s : St) (k : nat) (d : SECOidTag)
    (Hf : o_fields o = true) (Hk : o_key o = Some k) (Hkp : o_key_ptr o = true)
    (Ha : o_alg o = Some SEC_OID_PKCS1_RSA_PSS_SIGNATURE)
    (Hd : o_digest o = Some d \/ (o_digest o = None /\ d = SEC_OID_UNKNOWN))
    (Hr : o_rsa_key o = true)
    (Hna : o_new_arena o = true) (Hz : o_zalloc o = true) (Hpa : o_params o = true)
    (Hsa : o_set_algid o = true)
    (Hctx : o_new_ctx o = true) (Hb : o_begin o = true) (Hm : o_malloc o = true)
    (Hfc : o_find_class o = true) (Hme : o_method o = true) (Hno : o_new_object o = true) :
  let n := next s in
  initVfyContext o s =
    Done tt (mkSt (7 + n)
                  ((7 + n, CProxy (6 + n) VFY_CONTEXT (3 + n))
                     :: (6 + n, CVfyCtx)
                     :: (3 + n, CArena [(5 + n, BParams SEC_OID_PKCS1_RSA_PSS_SIGNATURE d (KeyTmp (1 + n)));
                                        (4 + n, BAlgId SEC_OID_PKCS1_RSA_PSS_SIGNATURE (5 + n))])
                     :: heap s)
                  (exn s) (prerr s)
                  ((S (jnext s), Some (7 + n)) :: proxies s)
                  (Some (S (jnext s))) (arrays s) (S (jnext s))
                  ([EVfyBegin (6 + n);
                    EVfyCreateContextWithAlgorithmID (KeyObj k) (4 + n) d;
                    ESetAlgorithmID (3 + n) (4 + n) SEC_OID_PKCS1_RSA_PSS_SIGNATURE (5 + n);
                    ECreateParams (3 + n) SEC_OID_PKCS1_RSA_PSS_SIGNATURE d (KeyTmp (1 + n));
                    EArenaZAlloc (3 + n); ENewArena;
                    ECreateRSAPrivateKey (o_strength o (KeyObj k))] ++ trace s)).
Proof.
  destruct Hd as [Hd|[Hd ->]]; unfold_init; crunch_head; reflexivity.
Qed.

Lemma initVfyContext_pss_success_witness :
  initVfyContext (all_ok SEC_OID_PKCS1_RSA_PSS_SIGNATURE) fresh_state =
    Done tt (mkSt 17
                  [(17, CProxy 16 VFY_CONTEXT 13); (16, CVfyCtx);
                   (13, CArena [(15, BParams SEC_OID_PKCS1_RSA_PSS_SIGNATURE SEC_OID_UNKNOWN
                                           (KeyTmp 11));
                                (14, BAlgId SEC_OID_PKCS1_RSA_PSS_SIGNATURE 15)])]
                  None 0%Z [(101, Some 17)] (Some 101) [(200, [1; 2; 3; 4]%Z)] 101
                  [EVfyBegin 16; EVfyCreateContextWithAlgorithmID (KeyObj 7) 14 SEC_OID_UNKNOWN;
                   ESetAlgorithmID 13 14 SEC_OID_PKCS1_RSA_PSS_SIGNATURE 15;
                   ECreateParams 13 SEC_OID_PKCS1_RSA_PSS_SIGNATURE SEC_OID_UNKNOWN (KeyTmp 11);
                   EArenaZAlloc 13; ENewArena; ECreateRSAPrivateKey 2048]).
Proof.
  exact (initVfyContext_pss_success (all_ok SEC_OID_PKCS1_RSA_PSS_SIGNATURE) fresh_state 7
           SEC_OID_UNKNOWN eq_refl eq_refl eq_refl eq_refl (or_intror (conj eq_refl eq_refl))
           eq_refl eq_refl eq_refl eq_refl eq_refl eq_refl eq_refl eq_refl eq_refl eq_refl
           eq_refl).
Defined.

(** When the key field of the signature object is null, initSigContext
    and initVfyContext raise a TokenException in a release build (a DEBUG
    build stops on the assertion) and do nothing else: no NSS call, no
    native allocation, the context proxy unchanged. *)
Theorem init_without_key (o : Oracle) (s : St)
    (Hf : o_fields o = true) (Hnk : o_key o = None) :
  match initSigContext o s with
  | Done _ s' =>
    o_debug o = false /\ exn s' = Some TOKEN_EXCEPTION /\ heap s' = heap s /\
    trace s' = trace s /\ sigContext s' = sigContext s /\ proxies s' = proxies s
  | Crash c => o_debug o = true /\ c = AssertionFailure
  end /\
  match initVfyContext o s with
  | Done _ s' =>
    o_debug o = false /\ exn s' = Some TOKEN_EXCEPTION /\ heap s' = heap s /\
    trace s' = trace s /\ sigContext s' = sigContext s /\ proxies s' = proxies s
  | Crash c => o_debug o = true /\ c = AssertionFailure
  end.
Proof.
  split; unfold_init; destruct (o_debug o) eqn:Hd; crunch_head; simpl; repeat split; auto.
Qed.

Lemma init_without_key_witness :
  match initSigContext no_key_release signing_state with
  | Done _ s' =>
    o_debug no_key_release = false /\ exn s' = Some TOKEN_EXCEPTION /\
    heap s' = heap signing_state /\ trace s' = trace signing_state /\
    sigContext s' = sigContext signing_state /\ proxies s' = proxies signing_state
  | Crash c => o_debug no_key_release = true /\ c = AssertionFailure
  end /\
  match initVfyContext no_key_release signing_state with
  | Done _ s' =>
    o_debug no_key_release = false /\ exn s' = Some TOKEN_EXCEPTION /\
    heap s' = heap signing_state /\ trace s' = trace signing_state /\
    sigContext s' = sigContext signing_state /\ proxies s' = proxies signing_state
  | Crash c => o_debug no_key_release = true /\ c = AssertionFailure
  end.
Proof.
  exact (init_without_key no_key_release signing_state eq_refl eq_refl).
Defined.

(** ** engineRawVerifyNative *)

(** engineRawVerifyNative never faults, and whatever the path it frees
    the two items it made: the native heap and the managed arrays are as
    before. *)
Theorem engineRawVerifyNative_frees_items (o : Oracle) (s : St) (keyObj hashBA sigBA : nat) :
  match engineRawVerifyNative o keyObj hashBA sigBA s with
  | Done _ s' => heap s' = heap s /\ arrays s' = arrays s
  | Crash _ => False
  end.
Proof.
  unfold_code; crunch; auto.
Qed.

(** With both arrays present, engineRawVerifyNative calls PK11_Verify
    once, on the signature and hash bytes and the object's key, exactly
    when both items and the key were obtained; it then returns true on
    success, false with nothing raised on a bad signature, and false with
    a SignatureException otherwise.  When an item or the key cannot be
    obtained, it calls nothing and returns false with an exception
    pending. *)
Theorem engineRawVerifyNative_outcome (o : Oracle) (s : St) (keyObj hashBA sigBA : nat)
    (hash sg : list Z)
    (Hh : lookup hashBA (arrays s) = Some hash) (Hs : lookup sigBA (arrays s) = Some sg) :
  match engineRawVerifyNative o keyObj hashBA sigBA s with
  | Done r s' =>
    if o_item o && o_key_ptr o then
      trace s' = EPK11Verify (KeyObj keyObj) sg hash :: trace s /\
      match o_pk11_verify o with
      | NOk => r = true /\ exn s' = exn s
      | NFail code =>
        r = false /\
        if (code =? SEC_ERROR_BAD_SIGNATURE)%Z then exn s' = exn s
        else exn s' = Some SIGNATURE_EXCEPTION
      end
    else r = false /\ trace s' = trace s /\ exn s' <> None
  | Crash _ => False
  end.
Proof.
  unfold_code; destruct (o_item o) eqn:Hi; destruct (o_key_ptr o) eqn:Hk;
    destruct (o_pk11_verify o) as [|code] eqn:Hv; crunch; repeat split; auto; discriminate.
Qed.

Lemma engineRawVerifyNative_outcome_witness :
  match engineRawVerifyNative (all_ok (SEC_OID_OTHER 1)) 7 200 201 verifying_state with
  | Done r s' =>
    if o_item (all_ok (SEC_OID_OTHER 1)) && o_key_ptr (all_ok (SEC_OID_OTHER 1)) then
      trace s' = EPK11Verify (KeyObj 7) [5; 6]%Z [1; 2; 3; 4]%Z :: trace verifying_state /\
      match o_pk11_verify (all_ok (SEC_OID_OTHER 1)) with
      | NOk => r = true /\ exn s' = exn verifying_state
      | NFail code =>
        r = false /\
        if (code =? SEC_ERROR_BAD_SIGNATURE)%Z then exn s' = exn verifying_state
        else exn s' = Some SIGNATURE_EXCEPTION
      end
    else r = false /\ trace s' = trace verifying_state /\ exn s' <> None
  | Crash _ => False
  end.
Proof.
  exact (engineRawVerifyNative_outcome (all_ok (SEC_OID_OTHER 1)) verifying_state 7 200 201
           [1; 2; 3; 4]%Z [5; 6]%Z eq_refl eq_refl).
Defined.

(** ** engineRawSignNative *)



(** The result of PR_NEW(SECItem) is not checked: when it returns NULL,
    engineRawSignNative stores [sig->len] through the NULL pointer as soon
    as the key has been obtained. *)
Theorem engineRawSignNative_unchecked_alloc (o : Oracle) (ro : RawSignOracle) (s : St)
    (keyObj hashBA : nat)
    (Hkey : o_key_ptr o = true) (Hnew : r_new ro = false) (H0 : lookup 0 (heap s) = None) :
  engineRawSignNative o ro keyObj hashBA s = Crash UseAfterFree.
Proof.
  unfold_raw; crunch.
Qed.

Lemma engineRawSignNative_unchecked_alloc_witness :
  engineRawSignNative (all_ok (SEC_OID_OTHER 1)) raw_null_item 7 200 fresh_state =
  Crash UseAfterFree.
Proof.
  exact (engineRawSignNative_unchecked_alloc (all_ok (SEC_OID_OTHER 1)) raw_null_item
           fresh_state 7 200 eq_refl eq_refl eq_refl).
Defined.
